(** * SublimeJEDI: the Jedi facade ([sublime_jedi/facade.py])

    A shallow embedding of the adapter between the editor plugin and the
    Jedi analysis engine, and the properties of its contract.

    - Python [str] values are [string]s (characters are code points below
      256); the [str] methods the module calls are in [PyStr].
    - A Python computation is a value of [Py A]: it returns or raises,
      and emits the records it hands to the module's [logger].  The
      exceptions of the model are the instances of [Exception], the class
      the dispatcher's handler names; interpreter signals outside that
      class (KeyboardInterrupt, SystemExit) are not modelled.
    - The engine ([jedi.Script]) is external: a session is the record of
      the outcomes of its operations at the cursor. *)

From Stdlib Require Import String Ascii List Bool Arith Lia ZArith.
From Stdlib Require Import DecimalString.
Import ListNotations.
Open Scope string_scope.

(** ** The [str] methods used by the facade *)

Module PyStr.

(** [s[n:]] *)
Fixpoint drop (n : nat) (s : string) : string :=
  match n, s with
  | O, _ => s
  | S _, EmptyString => EmptyString
  | S k, String _ s' => drop k s'
  end.

(** [s.startswith(p)] *)
Definition startswith (s p : string) : bool := String.prefix p s.

(** [s.endswith(p)] *)
Definition endswith (s p : string) : bool :=
  Nat.leb (String.length p) (String.length s)
  && String.eqb (drop (String.length s - String.length p) s) p.

(** [needle in s] *)
Fixpoint contains (needle s : string) : bool :=
  startswith s needle
  || match s with
     | EmptyString => false
     | String _ s' => contains needle s'
     end.

(** [s.replace(old, new)] for a non-empty [old]: occurrences are taken
    from the left and do not overlap.  [skip] counts the characters of
    the occurrence just replaced that are still to be passed over. *)
Fixpoint replace_from (old new : string) (skip : nat) (s : string) : string :=
  match s with
  | EmptyString => EmptyString
  | String c s' =>
      match skip with
      | S k => replace_from old new k s'
      | O =>
          if startswith s old
          then new ++ replace_from old new (String.length old - 1) s'
          else String c (replace_from old new 0 s')
      end
  end.

(** [s.replace(old, new)] with an empty [old] puts [new] around every
    character. *)
Fixpoint intersperse (new s : string) : string :=
  match s with
  | EmptyString => new
  | String c s' => new ++ String c (intersperse new s')
  end.

Definition replace (old new s : string) : string :=
  match old with
  | EmptyString => intersperse new s
  | _ => replace_from old new 0 s
  end.

(** The split of [s] at the last occurrence of a non-empty [sep]. *)
Fixpoint rpartition (sep s : string) : option (string * string) :=
  match s with
  | EmptyString => None
  | String c s' =>
      match rpartition sep s' with
      | Some (before, after) => Some (String c before, after)
      | None =>
          if startswith s sep
          then Some (EmptyString, drop (String.length sep) s)
          else None
      end
  end.

(** [s.rsplit(sep, 1)] for a non-empty [sep]. *)
Definition rsplit1 (sep s : string) : list string :=
  match rpartition sep s with
  | Some (before, after) => [before; after]
  | None => [s]
  end.

(** [s.split(sep)] for a non-empty [sep]; [cur] is the piece being read. *)
Fixpoint split_from (sep : string) (skip : nat) (cur s : string) : list string :=
  match s with
  | EmptyString => [cur]
  | String c s' =>
      match skip with
      | S k => split_from sep k cur s'
      | O =>
          if startswith s sep
          then cur :: split_from sep (String.length sep - 1) EmptyString s'
          else split_from sep 0 (cur ++ String c EmptyString) s'
      end
  end.

Definition split (sep s : string) : list string :=
  split_from sep 0 EmptyString s.

(** [c.isspace()] for a code point below 256. *)
Definition isspace (c : ascii) : bool :=
  let n := nat_of_ascii c in
  (Nat.leb 9 n && Nat.leb n 13) || (Nat.leb 28 n && Nat.leb n 32)
  || Nat.eqb n 133 || Nat.eqb n 160.

(** [s.lstrip()] *)
Fixpoint lstrip (s : string) : string :=
  match s with
  | EmptyString => EmptyString
  | String c s' => if isspace c then lstrip s' else s
  end.

(** [sep.join(l)] *)
Definition join (sep : string) (l : list string) : string :=
  String.concat sep l.

(** ['%d' % n] for a natural number *)
Definition of_nat (n : nat) : string :=
  NilEmpty.string_of_uint (Nat.to_uint n).

Definition TAB : string := String (ascii_of_nat 9) EmptyString.
Definition NL : string := String (ascii_of_nat 10) EmptyString.

End PyStr.

(** ** Python computations: results, exceptions and the logger *)

(** Instances of [Exception] that reach this module: the two the module
    itself can provoke, and whatever the engine raises. *)
Inductive exn : Type :=
| IndexError
| AttributeError (attr : string)
| EngineError (cls : string).

Inductive outcome (A : Type) : Type :=
| Return (a : A)
| Raise (e : exn).
Arguments Return {A} a.
Arguments Raise {A} e.

Inductive level : Type := DEBUG | ERROR.

(** One call on [logger]; [exc_info] is the exception whose trace
    [logger.exception] attaches. *)
Record log_record : Type := LogRecord {
  levelname : level;
  message : string;
  exc_info : option exn
}.

Definition Py (A : Type) : Type := (outcome A * list log_record)%type.

Definition ret {A} (a : A) : Py A := (Return a, []).

Definition raise {A} (e : exn) : Py A := (Raise e, []).

Definition bind {A B} (m : Py A) (f : A -> Py B) : Py B :=
  match m with
  | (Return a, l) => let (r, l') := f a in (r, (l ++ l')%list)
  | (Raise e, l) => (Raise e, l)
  end.

Declare Scope py_scope.
Delimit Scope py_scope with py.
Notation "x <- m ;; k" := (bind m (fun x => k))
  (at level 61, m at next level, right associativity) : py_scope.
Notation "m ;;; k" := (bind m (fun _ => k))
  (at level 61, right associativity) : py_scope.
Open Scope py_scope.

(** [try: body  except Exception: handler] *)
Definition try_except {A} (body : Py A) (handler : exn -> Py A) : Py A :=
  match body with
  | (Return a, l) => (Return a, l)
  | (Raise e, l) => let (r, l') := handler e in (r, (l ++ l')%list)
  end.

(** [try: body  except IndexError: handler] *)
Definition try_except_IndexError {A} (body : Py A) (handler : Py A) : Py A :=
  match body with
  | (Raise IndexError, l) => let (r, l') := handler in (r, (l ++ l')%list)
  | other => other
  end.

(** The call of an engine operation: its outcome, nothing logged. *)
Definition call {A} (o : outcome A) : Py A := (o, []).

Definition value_of {A} (m : Py A) : outcome A := fst m.
Definition log_of {A} (m : Py A) : list log_record := snd m.

Definition logger_debug (msg : string) : Py unit :=
  (Return tt, [LogRecord DEBUG msg None]).

Definition logger_exception (msg : string) (e : exn) : Py unit :=
  (Return tt, [LogRecord ERROR msg (Some e)]).

(** [l[i]] *)
Definition getitem {A} (l : list A) (i : nat) : Py A :=
  match nth_error l i with
  | Some a => ret a
  | None => raise IndexError
  end.

(** [for x in l: acc = body(acc, x)] *)
Fixpoint for_each {A S} (l : list A) (body : S -> A -> Py S) (acc : S) : Py S :=
  match l with
  | [] => ret acc
  | x :: rest => acc' <- body acc x ;; for_each rest body acc'
  end.

(** [enumerate(l, start)] *)
Fixpoint enumerate {A} (start : nat) (l : list A) : list (nat * A) :=
  match l with
  | [] => []
  | x :: rest => (start, x) :: enumerate (S start) rest
  end.

(** ** The engine's records (jedi.api.classes) *)

Module Completion.
Record t : Type := mk {
  name : string;
  type : string
}.
End Completion.

Module Param.
(** [name] is a [str] or [None]; [name_info] is the rendering of the
    triple of engine internals that the helper sends to the debug log. *)
Record t : Type := mk {
  name : option string;
  description : string;
  name_info : string
}.
End Param.

Module CallSignature.
Record t : Type := mk {
  params : list Param.t
}.
End CallSignature.

Module Definition_.
Record t : Type := mk {
  type : string;
  module_path : string;
  line : Z;
  column : Z;
  in_builtin_module : bool;
  docstring : string
}.
End Definition_.

(** [jedi.Script] at one cursor position: the outcome of each operation. *)
Module Script.
Record t : Type := mk {
  completions : outcome (list Completion.t);
  goto_assignments : outcome (list Definition_.t);
  goto_definitions : outcome (list Definition_.t);
  usages : outcome (list Definition_.t);
  call_signatures : outcome (list CallSignature.t)
}.
End Script.

(** ** facade.py *)

Definition format_completion (complete : Completion.t) : string * string :=
  let display := Completion.name complete ++ PyStr.TAB ++ Completion.type complete in
  let insert := Completion.name complete in
  (display, insert).

(** [param.name == s] *)
Definition name_is (n : option string) (s : string) : bool :=
  match n with
  | Some n' => String.eqb n' s
  | None => false
  end.

(** The body of the loop of [get_function_parameters]; each [ret params]
    that leaves [params] as it was is a [continue]. *)
Definition get_function_parameters_body (with_keywords : bool)
    (params : list (string * option string)) (param : Param.t)
  : Py (list (string * option string)) :=
  logger_debug ("Parameter: " ++ Param.name_info param) ;;;
  if (negb with_keywords && name_is (Param.name param) "...")
     || PyStr.contains "*" (Param.description param)
  then ret params
  else
    match Param.name param with
    | None => ret params
    | Some name =>
        if String.eqb name "" || String.eqb name "self" || String.eqb name "..."
        then ret params
        else
          let param_description :=
            PyStr.replace "param " "" (Param.description param) in
          let is_keyword := PyStr.contains "=" param_description in
          if is_keyword && with_keywords then
            after <- getitem (PyStr.rsplit1 "=" param_description) 1 ;;
            let default_value := PyStr.lstrip after in
            ret (params ++ [(name, Some default_value)])%list
          else if is_keyword && negb with_keywords then
            ret params
          else
            ret (params ++ [(name, None)])%list
    end.

Definition get_function_parameters (call_signature : option CallSignature.t)
    (with_keywords : bool) : Py (list (string * option string)) :=
  match call_signature with
  | None => ret []
  | Some sig =>
      for_each (CallSignature.params sig)
               (get_function_parameters_body with_keywords) []
  end.

Record JediFacade : Type := {
  script : Script.t;
  auto_complete_function_params : string
}.

Definition location : Type := (string * Z * Z)%type.

(** What a handler hands back to the editor. *)
Inductive value : Type :=
| VNone
| VStr (s : string)
| VLocations (l : list location)
| VCompletions (l : list (string * string)).

(** [[(i.module_path, i.line, i.column + 1)
      for i in definitions if not i.in_builtin_module()]] *)
Definition locations (definitions : list Definition_.t) : list location :=
  map (fun i => (Definition_.module_path i, Definition_.line i,
                 (Definition_.column i + 1)%Z))
      (filter (fun i => negb (Definition_.in_builtin_module i)) definitions).

Definition _goto (self : JediFacade) : Py (list location) :=
  definitions <- call (Script.goto_assignments (script self)) ;;
  definitions <-
    (if forallb (fun d => String.eqb (Definition_.type d) "import") definitions
     then call (Script.goto_definitions (script self))
     else ret definitions) ;;
  ret (locations definitions).

Definition _usages (self : JediFacade) : Py (list location) :=
  usages <- call (Script.usages (script self)) ;;
  ret (locations usages).

(** The generator [_completion], run to its end. *)
Definition _completion (self : JediFacade) : Py (list (string * string)) :=
  completions <- call (Script.completions (script self)) ;;
  ret (map format_completion completions).

(** One turn of the loop of [_complete_call_assigments]. *)
Definition call_assigment (with_values : bool)
    (entry : nat * (string * option string)) : string * string :=
  let '(index, (name, value)) := entry in
  match value with
  | Some v =>
      if with_values
      then (name ++ PyStr.TAB ++ "param",
            name ++ "=${" ++ PyStr.of_nat (index + 1) ++ ":" ++ v ++ "}")
      else (name ++ PyStr.TAB ++ "param",
            "${" ++ PyStr.of_nat (index + 1) ++ ":" ++ name ++ "}")
  | None =>
      (name ++ PyStr.TAB ++ "param",
       "${" ++ PyStr.of_nat (index + 1) ++ ":" ++ name ++ "}")
  end.

(** The generator [_complete_call_assigments], run to its end. *)
Definition _complete_call_assigments (self : JediFacade)
    (with_keywords with_values : bool) : Py (list (string * string)) :=
  call_definition <-
    try_except_IndexError
      (signatures <- call (Script.call_signatures (script self)) ;;
       first <- getitem signatures 0 ;;
       ret (Some first))
      (ret None) ;;
  match call_definition with
  | None => ret []
  | Some call_definition =>
      parameters <- get_function_parameters (Some call_definition) with_keywords ;;
      ret (map (call_assigment with_values) (enumerate 0 parameters))
  end.

Definition _docstring (self : JediFacade) (signature : bool) : Py value :=
  defs <- call (Script.goto_definitions (script self)) ;;
  match defs with
  | [] => ret VNone
  | d :: _ =>
      if signature then
        calltip_signature <-
          getitem (PyStr.split (PyStr.NL ++ PyStr.NL) (Definition_.docstring d)) 0 ;;
        ret (VStr (PyStr.replace " = " "="
                     (PyStr.replace PyStr.NL " " calltip_signature)))
      else ret (VStr (Definition_.docstring d))
  end.

Definition get_goto (self : JediFacade) : Py value :=
  l <- _goto self ;; ret (VLocations l).

Definition get_usages (self : JediFacade) : Py value :=
  l <- _usages self ;; ret (VLocations l).

Definition get_funcargs (self : JediFacade) : Py value :=
  let complete_all := String.eqb (auto_complete_function_params self) "all" in
  call_parameters <- _complete_call_assigments self complete_all complete_all ;;
  ret (VStr (PyStr.join ", " (map snd call_parameters))).

(** [c[0].endswith('\tparam')] *)
Definition is_param_label (c : string * string) : bool :=
  PyStr.endswith (fst c) (PyStr.TAB ++ "param").

Definition autocomplete_entries (self : JediFacade) : Py (list (string * string)) :=
  args <- _complete_call_assigments self true false ;;
  completion <- _completion self ;;
  ret (args ++ filter (fun c => negb (is_param_label c)) completion)%list.

Definition get_autocomplete (self : JediFacade) : Py value :=
  l <- autocomplete_entries self ;; ret (VCompletions l).

Definition get_docstring (self : JediFacade) : Py value :=
  _docstring self false.

Definition get_signature (self : JediFacade) : Py value :=
  _docstring self true.

(** [getattr(self, attr)] for the names the dispatcher builds. *)
Definition getattr (self : JediFacade) (attr : string) : Py (Py value) :=
  if String.eqb attr "get_goto" then ret (get_goto self)
  else if String.eqb attr "get_usages" then ret (get_usages self)
  else if String.eqb attr "get_funcargs" then ret (get_funcargs self)
  else if String.eqb attr "get_autocomplete" then ret (get_autocomplete self)
  else if String.eqb attr "get_docstring" then ret (get_docstring self)
  else if String.eqb attr "get_signature" then ret (get_signature self)
  else raise (AttributeError attr).

Definition get (self : JediFacade) (action : string) : Py value :=
  try_except
    (handler <- getattr self ("get_" ++ action) ;; handler)
    (fun e =>
       logger_exception ("`JediFacade.get_" ++ action ++ "` failed") e ;;;
       ret VNone).

(** ** Definitions used to state the properties *)

(** What one declared parameter adds to the list built by
    [get_function_parameters]: a pure reading of one turn of its loop. *)
Definition parameter_entry (with_keywords : bool) (param : Param.t)
  : list (string * option string) :=
  if PyStr.contains "*" (Param.description param) then []
  else
    match Param.name param with
    | None => []
    | Some name =>
        if String.eqb name "" || String.eqb name "self" || String.eqb name "..."
        then []
        else
          let param_description :=
            PyStr.replace "param " "" (Param.description param) in
          if PyStr.contains "=" param_description then
            match PyStr.rpartition "=" param_description with
            | Some (_, after) =>
                if with_keywords then [(name, Some (PyStr.lstrip after))] else []
            | None => []
            end
          else [(name, None)]
    end.

(** The text after the first occurrence of [sep] in [s], as the
    specification words the default value of a parameter. *)
Fixpoint after_first (sep s : string) : string :=
  match s with
  | EmptyString => EmptyString
  | String _ s' =>
      if PyStr.startswith s sep then PyStr.drop (String.length sep) s
      else after_first sep s'
  end.

(** The engine's rendering of the parameters of [def f(self, a, b=5, *args)]. *)
Definition example_params : list Param.t :=
  [ Param.mk (Some "self") "param self" "self";
    Param.mk (Some "a") "param a" "a";
    Param.mk (Some "b") "param b=5" "b";
    Param.mk (Some "args") "param *args" "args" ].

Definition example_signature : CallSignature.t :=
  CallSignature.mk example_params.

(** A parameter whose default value is a string holding the separator:
    [def write(sep='=')]. *)
Definition sep_param : Param.t :=
  Param.mk (Some "sep") "param sep='='" "sep".

(** A parameter whose default value is a string holding the word the
    engine puts before a parameter: [def fail(msg='bad param value')]. *)
Definition msg_param : Param.t :=
  Param.mk (Some "msg") "param msg='bad param value'" "msg".

(** The parameters a call signature declares; none when there is no
    signature. *)
Definition declared_params (call_signature : option CallSignature.t)
  : list Param.t :=
  match call_signature with
  | Some sig => CallSignature.params sig
  | None => []
  end.

(** The pair of a parameter that is listed without a value. *)
Definition named_entry (param : Param.t) : list (string * option string) :=
  match Param.name param with
  | Some name => [(name, None)]
  | None => []
  end.

(** Whether a parameter is listed when keywords are left out. *)
Definition listed_without_keywords (param : Param.t) : bool :=
  match parameter_entry false param with
  | [] => false
  | _ :: _ => true
  end.

(** The triple the editor receives for one engine definition. *)
Definition location_of (d : Definition_.t) : location :=
  (Definition_.module_path d, Definition_.line d, (Definition_.column d + 1)%Z).

(** [l] is what the editor is shown for the engine results [defs]: one
    triple, with the column counted from 1, for each result outside the
    built-in modules, in the engine's order. *)
Definition shows (l : list location) (defs : list Definition_.t) : Prop :=
  l = map location_of
        (filter (fun d => negb (Definition_.in_builtin_module d)) defs)
  /\ forall loc, In loc l ->
       exists d, In d defs
                 /\ Definition_.in_builtin_module d = false
                 /\ loc = (Definition_.module_path d, Definition_.line d,
                           (Definition_.column d + 1)%Z).

(** A session in which the cursor has no assignment target, but a
    definition. *)
Definition session_without_assignment : JediFacade :=
  {| script :=
       Script.mk (Return []) (Return [])
         (Return [Definition_.mk "function" "pkg/mod.py" 3 4 false "doc"])
         (Return []) (Return []);
     auto_complete_function_params := "all" |}.

(** A session in which the cursor is on an imported name. *)
Definition session_on_import : JediFacade :=
  {| script :=
       Script.mk (Return [])
         (Return [Definition_.mk "import" "main.py" 1 7 false ""])
         (Return [Definition_.mk "function" "pkg/mod.py" 3 4 false "doc";
                  Definition_.mk "function" "" 0 0 true "built-in"])
         (Return [Definition_.mk "statement" "main.py" 9 0 false "";
                  Definition_.mk "function" "" 0 0 true "built-in"])
         (Return []);
     auto_complete_function_params := "all" |}.

(** A session in which the cursor is inside the call of a function
    declared [(self, a, b=5, *args)]; the engine completes [foo] and the
    parameter [a]. *)
Definition session_in_call : JediFacade :=
  {| script :=
       Script.mk
         (Return [Completion.mk "foo" "function"; Completion.mk "a" "param"])
         (Return []) (Return []) (Return [])
         (Return [example_signature]);
     auto_complete_function_params := "all" |}.

(** The insert text of a parameter without a value: [${k:name}]. *)
Definition placeholder (k : nat) (name : string) : string :=
  "${" ++ PyStr.of_nat k ++ ":" ++ name ++ "}".

(** The insert text of a parameter with its value: [name=${k:value}]. *)
Definition keyword_placeholder (k : nat) (name value : string) : string :=
  name ++ "=${" ++ PyStr.of_nat k ++ ":" ++ value ++ "}".

(** The action names for which the facade has a [get_] method. *)
Definition actions : list string :=
  ["goto"; "usages"; "funcargs"; "autocomplete"; "docstring"; "signature"].

(** The record [logger.exception] writes when an action fails. *)
Definition failure_record (action : string) (e : exn) : log_record :=
  LogRecord ERROR ("`JediFacade.get_" ++ action ++ "` failed") (Some e).

(** The record [get_function_parameters] sends to the debug log for one
    declared parameter. *)
Definition debug_record (param : Param.t) : log_record :=
  LogRecord DEBUG ("Parameter: " ++ Param.name_info param) None.

Definition is_error (r : log_record) : bool :=
  match levelname r with
  | ERROR => true
  | DEBUG => false
  end.

(** A listed parameter without a value. *)
Definition no_value (entry : string * option string) : bool :=
  match snd entry with
  | None => true
  | Some _ => false
  end.

(** The call [get] guards: the lookup of the method, then its run. *)
Definition guarded_call (self : JediFacade) (action : string) : Py value :=
  handler <- getattr self ("get_" ++ action) ;; handler.

(** The one-line form [_docstring] gives to the first paragraph. *)
Definition calltip (paragraph : string) : string :=
  PyStr.replace " = " "=" (PyStr.replace PyStr.NL " " paragraph).

(** A session built on the outcomes of the two operations the completion
    of call arguments and of symbols uses. *)
Definition session_completing (mode : string)
    (signatures : outcome (list CallSignature.t))
    (completions : outcome (list Completion.t)) : JediFacade :=
  {| script := Script.mk completions (Return []) (Return []) (Return [])
                 signatures;
     auto_complete_function_params := mode |}.

(** A session built on the outcomes of the two resolution operations. *)
Definition session_resolving
    (assignments definitions : outcome (list Definition_.t)) : JediFacade :=
  {| script := Script.mk (Return []) assignments definitions (Return [])
                 (Return []);
     auto_complete_function_params := "all" |}.

(** A computation that writes no error record. *)
Definition quiet {A} (m : Py A) : Prop :=
  filter is_error (log_of m) = [].

(** The actions whose method always builds a list or a string. *)
Definition collecting_actions : list string :=
  ["goto"; "usages"; "funcargs"; "autocomplete"].

(** ** Examples *)

Example replace_param : PyStr.replace "param " "" "param b=5" = "b=5".
Proof. reflexivity. Qed.

Example rsplit1_last : PyStr.rsplit1 "=" "sep='='" = ["sep='"; "'"].
Proof. reflexivity. Qed.

Example split_blank :
  PyStr.split (PyStr.NL ++ PyStr.NL) ("f(x)" ++ PyStr.NL ++ PyStr.NL ++ "doc")
  = ["f(x)"; "doc"].
Proof. reflexivity. Qed.

Example endswith_param :
  PyStr.endswith ("a" ++ PyStr.TAB ++ "param") (PyStr.TAB ++ "param") = true.
Proof. reflexivity. Qed.

Example of_nat_12 : PyStr.of_nat 12 = "12".
Proof. reflexivity. Qed.

(** ** The computation monad *)

Lemma value_of_bind {A B} (m : Py A) (f : A -> Py B) :
  value_of (bind m f)
  = match value_of m with
    | Return a => value_of (f a)
    | Raise e => Raise e
    end.
Proof.
  destruct m as [[a | e] l]; cbn; [destruct (f a) |]; reflexivity.
Qed.

Lemma value_of_call {A} (o : outcome A) : value_of (call o) = o.
Proof. reflexivity. Qed.

Lemma value_of_try_except {A} (body : Py A) (handler : exn -> Py A) :
  value_of (try_except body handler)
  = match value_of body with
    | Return a => Return a
    | Raise e => value_of (handler e)
    end.
Proof.
  destruct body as [[a | e] l]; cbn; [| destruct (handler e)]; reflexivity.
Qed.

Lemma log_of_try_except {A} (body : Py A) (handler : exn -> Py A) :
  log_of (try_except body handler)
  = match value_of body with
    | Return a => log_of body
    | Raise e => (log_of body ++ log_of (handler e))%list
    end.
Proof.
  destruct body as [[a | e] l]; cbn; [| destruct (handler e)]; reflexivity.
Qed.

(** ** Strings *)

Lemma startswith_app (s p : string) :
  PyStr.startswith s p = true -> s = p ++ PyStr.drop (String.length p) s.
Proof.
  unfold PyStr.startswith. revert s.
  induction p as [| a p IH]; intros s H.
  - destruct s; reflexivity.
  - destruct s as [| b s]; cbn in H; [discriminate |].
    destruct (ascii_dec a b) as [-> | _]; [| discriminate].
    cbn. f_equal. now apply IH.
Qed.

Lemma contains_tail (sep : string) (c : ascii) (s : string) :
  PyStr.contains sep (String c s) = false -> PyStr.contains sep s = false.
Proof.
  cbn. intros H. apply orb_false_iff in H. apply H.
Qed.

Lemma contains_drop (sep : string) (k : nat) (s : string) :
  PyStr.contains sep s = false -> PyStr.contains sep (PyStr.drop k s) = false.
Proof.
  revert s. induction k as [| k IH]; intros s H.
  - destruct s; exact H.
  - destruct s as [| c s]; [exact H |].
    cbn [PyStr.drop]. apply IH. eapply contains_tail; eauto.
Qed.

(** [rpartition] finds an occurrence exactly when there is one. *)
Lemma rpartition_none (a : ascii) (sep' s : string) :
  PyStr.rpartition (String a sep') s = None
  <-> PyStr.contains (String a sep') s = false.
Proof.
  induction s as [| c s IH].
  - cbn. tauto.
  - cbn [PyStr.rpartition PyStr.contains].
    destruct (PyStr.rpartition (String a sep') s) as [[b t] |].
    + split; [discriminate |].
      intros H. apply orb_false_iff in H. destruct H as [_ H].
      apply IH in H. discriminate.
    + assert (Hs : PyStr.contains (String a sep') s = false) by now apply IH.
      rewrite Hs, orb_false_r.
      destruct (PyStr.startswith (String c s) (String a sep'));
        split; intros; congruence.
Qed.

(** [rpartition] splits at the last occurrence: the separator does not
    occur in what follows it. *)
Lemma rpartition_last (a : ascii) (sep' s before after : string) :
  PyStr.rpartition (String a sep') s = Some (before, after) ->
  s = before ++ String a sep' ++ after
  /\ PyStr.contains (String a sep') after = false.
Proof.
  revert before after.
  induction s as [| c s IH]; intros before after H; [discriminate |].
  cbn [PyStr.rpartition] in H.
  destruct (PyStr.rpartition (String a sep') s) as [[b t] |] eqn:E.
  - injection H as <- <-.
    destruct (IH _ _ eq_refl) as [-> Hc]. split; [reflexivity | exact Hc].
  - destruct (PyStr.startswith (String c s) (String a sep')) eqn:P;
      [| discriminate].
    injection H as <- <-. split.
    + exact (startswith_app _ _ P).
    + cbn [String.length PyStr.drop].
      apply contains_drop. now apply rpartition_none.
Qed.

Lemma contains_char_cons (a c : ascii) (s : string) :
  PyStr.contains (String a EmptyString) (String c s)
  = Ascii.eqb a c || PyStr.contains (String a EmptyString) s.
Proof.
  cbn. destruct (ascii_dec a c) as [-> | N].
  - rewrite Ascii.eqb_refl. now destruct s.
  - apply Ascii.eqb_neq in N. now rewrite N.
Qed.

(** Removing ["param "] neither removes nor creates an [=]: [pre] is the
    part of the occurrence being passed over. *)
Lemma replace_from_param_keeps_eq (s : string) :
  forall (skip : nat) (pre rest : string),
    s = pre ++ rest ->
    String.length pre = skip ->
    PyStr.contains "=" pre = false ->
    PyStr.contains "=" (PyStr.replace_from "param " "" skip s)
    = PyStr.contains "=" rest.
Proof.
  induction s as [| c s IH]; intros skip pre rest Hs Hlen Hpre.
  - destruct pre; [| discriminate]. cbn in Hs. now subst rest.
  - destruct skip as [| k].
    + destruct pre; [| discriminate]. cbn in Hs. subst rest.
      cbn [PyStr.replace_from].
      destruct (PyStr.startswith (String c s) "param ") eqn:P.
      * apply startswith_app in P. cbn in P.
        injection P as -> Htail.
        change (String.length "param " - 1) with 5. cbn [append].
        rewrite (IH 5 "aram " (PyStr.drop 5 s) Htail eq_refl eq_refl).
        rewrite Htail at 2. reflexivity.
      * rewrite !contains_char_cons.
        now rewrite (IH 0 "" s eq_refl eq_refl eq_refl).
    + destruct pre as [| c' pre]; [discriminate |].
      cbn in Hs, Hlen. injection Hs as -> ->. injection Hlen as Hlen.
      cbn [PyStr.replace_from].
      apply (IH k pre rest eq_refl Hlen). eapply contains_tail; eauto.
Qed.

Lemma replace_param_keeps_eq (s : string) :
  PyStr.contains "=" (PyStr.replace "param " "" s) = PyStr.contains "=" s.
Proof.
  exact (replace_from_param_keeps_eq s 0 "" s eq_refl eq_refl eq_refl).
Qed.

(** ** get_function_parameters *)

Lemma get_function_parameters_body_value (with_keywords : bool)
    (params : list (string * option string)) (param : Param.t) :
  value_of (get_function_parameters_body with_keywords params param)
  = Return (params ++ parameter_entry with_keywords param)%list.
Proof.
  unfold get_function_parameters_body, parameter_entry.
  rewrite value_of_bind. cbn [value_of logger_debug fst].
  destruct (PyStr.contains "*" (Param.description param)).
  { rewrite orb_true_r, app_nil_r. reflexivity. }
  rewrite orb_false_r.
  destruct (Param.name param) as [name |]; cbn [name_is].
  2:{ rewrite andb_false_r, app_nil_r. reflexivity. }
  destruct (String.eqb name "...") eqn:Dots.
  { rewrite !orb_true_r, app_nil_r. now destruct (negb with_keywords). }
  rewrite andb_false_r, !orb_false_r.
  destruct (String.eqb name "" || String.eqb name "self").
  { rewrite app_nil_r. reflexivity. }
  set (pd := PyStr.replace "param " "" (Param.description param)).
  destruct (PyStr.contains "=" pd) eqn:Kw; cbn [andb]; [| reflexivity].
  unfold PyStr.rsplit1.
  destruct (PyStr.rpartition "=" pd) as [[before after] |] eqn:R.
  - destruct with_keywords; cbn; [reflexivity | now rewrite app_nil_r].
  - apply rpartition_none in R. congruence.
Qed.

Lemma for_each_parameters_value (with_keywords : bool) (l : list Param.t)
    (acc : list (string * option string)) :
  value_of (for_each l (get_function_parameters_body with_keywords) acc)
  = Return (acc ++ flat_map (parameter_entry with_keywords) l)%list.
Proof.
  revert acc. induction l as [| p l IH]; intros acc; cbn [for_each flat_map].
  - now rewrite app_nil_r.
  - rewrite value_of_bind, get_function_parameters_body_value, IH.
    now rewrite <- app_assoc.
Qed.

(** The helper never raises: its result is the concatenation, in
    declaration order, of what each parameter adds. *)
Lemma get_function_parameters_value (sig : CallSignature.t) (with_keywords : bool) :
  value_of (get_function_parameters (Some sig) with_keywords)
  = Return (flat_map (parameter_entry with_keywords) (CallSignature.params sig)).
Proof.
  unfold get_function_parameters. now rewrite for_each_parameters_value.
Qed.

Lemma flat_map_filter {A B} (entry g : A -> list B) (keep : A -> bool) (l : list A) :
  (forall x, entry x = if keep x then g x else []) ->
  flat_map entry l = flat_map g (filter keep l).
Proof.
  intros H. induction l as [| x l IH]; cbn; [reflexivity |].
  rewrite H, IH. now destruct (keep x).
Qed.

(** C2, as the claim states it, fails: without keywords the defaulted
    parameter [b] of [(self, a, b=5, *args)] is not in the result. *)
Lemma without_keywords_b_is_not_listed :
  value_of (get_function_parameters (Some example_signature) false)
  <> Return [("a", None); ("b", None)].
Proof. vm_compute. discriminate. Qed.

(** C2 (amended): for the signature [(self, a, b=5, *args)] and
    [with_keywords] false, [get_function_parameters] returns
    [[("a", None)]]: the defaulted parameter [b] is skipped, as are
    [self] and [*args]; and so it is whatever the default of [b]. *)
Theorem gfp_example_without_keywords :
  value_of (get_function_parameters (Some example_signature) false)
  = Return [("a", None)]
  /\ forall default : string,
       value_of (get_function_parameters
                   (Some (CallSignature.mk
                            [Param.mk (Some "self") "param self" "self";
                             Param.mk (Some "a") "param a" "a";
                             Param.mk (Some "b") ("param b=" ++ default) "b";
                             Param.mk (Some "args") "param *args" "args"]))
                   false)
       = Return [("a", None)].
Proof.
  split; [reflexivity |].
  intros default. rewrite get_function_parameters_value.
  cbn [CallSignature.params flat_map].
  replace (parameter_entry false
             (Param.mk (Some "b") ("param b=" ++ default) "b"))
    with (@nil (string * option string)); [reflexivity |].
  unfold parameter_entry. cbn [Param.description Param.name].
  destruct (PyStr.contains "*" ("param b=" ++ default)); [reflexivity |].
  cbn [String.eqb Ascii.eqb Bool.eqb orb].
  change (PyStr.replace "param " "" ("param b=" ++ default))
    with (String "b" (String "=" (PyStr.replace_from "param " "" 0 default))).
  rewrite !contains_char_cons. cbn [Ascii.eqb Bool.eqb orb].
  now destruct (PyStr.rpartition _ _) as [[? ?] |].
Qed.

(** C3 (code bug): with [with_keywords] true the value of a parameter
    should be its default, the text after the first [=] of its
    description.  The code cuts at the last [=], and after removing every
    ["param "]: for [sep='='] it returns ['] where the default is ['='],
    and for [msg='bad param value'] it returns ['bad value'].  On
    [(self, a, b=5, *args)] it returns [[("a", None); ("b", "5")]]. *)
Theorem gfp_default_value_is_cut_short :
  (PyStr.contains "=" (Param.description sep_param) = true
   /\ PyStr.lstrip (after_first "=" (Param.description sep_param)) = "'='"
   /\ value_of (get_function_parameters
                  (Some (CallSignature.mk [sep_param])) true)
      = Return [("sep", Some "'")])
  /\ (PyStr.contains "=" (Param.description msg_param) = true
      /\ PyStr.lstrip (after_first "=" (Param.description msg_param))
         = "'bad param value'"
      /\ value_of (get_function_parameters
                     (Some (CallSignature.mk [msg_param])) true)
         = Return [("msg", Some "'bad value'")])
  /\ value_of (get_function_parameters (Some example_signature) true)
     = Return [("a", None); ("b", Some "5")].
Proof. vm_compute. repeat split. Qed.

Lemma contains_eq_app (before after : string) :
  PyStr.contains "=" (before ++ "=" ++ after) = true.
Proof.
  induction before as [| c before IH].
  - cbn [append]. now rewrite contains_char_cons.
  - cbn [append] in *. rewrite contains_char_cons, IH. apply orb_true_r.
Qed.

Lemma rpartition_eq_app (before after : string) :
  PyStr.contains "=" after = false ->
  PyStr.rpartition "=" (before ++ "=" ++ after) = Some (before, after).
Proof.
  intros H. induction before as [| c before IH].
  - cbn [append PyStr.rpartition].
    apply rpartition_none in H. rewrite H. now destruct after.
  - cbn [append] in *. cbn [PyStr.rpartition]. now rewrite IH.
Qed.

(** With keywords, a listed parameter with a default carries the text
    that follows the last [=] of its description. *)
Lemma keyword_entry_after_last_eq (param : Param.t) (name before after : string) :
  Param.name param = Some name ->
  name <> "" /\ name <> "self" /\ name <> "..." ->
  PyStr.contains "*" (Param.description param) = false ->
  PyStr.replace "param " "" (Param.description param) = before ++ "=" ++ after ->
  PyStr.contains "=" after = false ->
  parameter_entry true param = [(name, Some (PyStr.lstrip after))].
Proof.
  intros Hname (N1 & N2 & N3) Hstar Hsplit Hafter.
  apply String.eqb_neq in N1, N2, N3.
  unfold parameter_entry.
  rewrite Hstar, Hname, N1, N2, N3, Hsplit, contains_eq_app.
  now rewrite (rpartition_eq_app before after Hafter).
Qed.

(** Whatever the number of [=] in it, a listed parameter whose
    description holds one carries, with keywords, the text after the
    last. *)
Lemma keyword_entry_of_description (param : Param.t) (name : string) :
  Param.name param = Some name ->
  name <> "" /\ name <> "self" /\ name <> "..." ->
  PyStr.contains "*" (Param.description param) = false ->
  PyStr.contains "=" (Param.description param) = true ->
  exists before after,
    PyStr.replace "param " "" (Param.description param) = before ++ "=" ++ after
    /\ PyStr.contains "=" after = false
    /\ parameter_entry true param = [(name, Some (PyStr.lstrip after))].
Proof.
  intros Hname Hreal Hstar Heq.
  rewrite <- replace_param_keeps_eq in Heq.
  destruct (PyStr.rpartition "="
              (PyStr.replace "param " "" (Param.description param)))
    as [[before after] |] eqn:R.
  2:{ apply rpartition_none in R. congruence. }
  destruct (rpartition_last _ _ _ _ _ R) as [Hsplit Hlast].
  exists before, after. repeat split; try assumption.
  now apply (keyword_entry_after_last_eq param name before after).
Qed.

Lemma parameter_entry_without_keywords (param : Param.t) :
  parameter_entry false param = []
  \/ (PyStr.contains "*" (Param.description param) = false
      /\ parameter_entry false param = named_entry param
      /\ exists name, Param.name param = Some name).
Proof.
  unfold parameter_entry, named_entry.
  destruct (PyStr.contains "*" (Param.description param)); [now left |].
  destruct (Param.name param) as [name |]; [| now left].
  destruct (String.eqb name "" || String.eqb name "self" || String.eqb name "...");
    [now left |].
  destruct (PyStr.contains "="
              (PyStr.replace "param " "" (Param.description param))).
  - left. now destruct (PyStr.rpartition _ _) as [[? ?] |].
  - right. repeat split. now exists name.
Qed.

(** C8: with [with_keywords] false the helper returns a list in which no
    pair has a value, and which is made, in order, of the names of
    declared parameters whose description has no [*]: no parameter with
    a [*] in its description is in the output. *)
Theorem gfp_without_keywords_no_value_no_star
    (call_signature : option CallSignature.t) :
  exists out,
    value_of (get_function_parameters call_signature false) = Return out
    /\ (forall name v, In (name, v) out -> v = None)
    /\ (forall param,
           In param (filter listed_without_keywords
                       (declared_params call_signature)) ->
           PyStr.contains "*" (Param.description param) = false)
    /\ out = flat_map named_entry
               (filter listed_without_keywords (declared_params call_signature)).
Proof.
  destruct call_signature as [sig |]; cbn [declared_params].
  2:{ exists []. cbn. repeat split; intros; contradiction. }
  exists (flat_map (parameter_entry false) (CallSignature.params sig)).
  split; [apply get_function_parameters_value |].
  split; [| split].
  - intros name v H. apply in_flat_map in H. destruct H as (p & _ & H).
    destruct (parameter_entry_without_keywords p) as [E | (_ & E & _)];
      rewrite E in H; [contradiction |].
    unfold named_entry in H. destruct (Param.name p); [| contradiction].
    destruct H as [H | []]. congruence.
  - intros p H. apply filter_In in H. destruct H as [_ H].
    unfold listed_without_keywords in H.
    destruct (parameter_entry_without_keywords p) as [E | (S & _)];
      [rewrite E in H; discriminate | exact S].
  - apply flat_map_filter. intros p. unfold listed_without_keywords.
    destruct (parameter_entry_without_keywords p) as [E | (_ & E & n & N)].
    + now rewrite E.
    + rewrite E. unfold named_entry. now rewrite N.
Qed.

(** ** format_completion *)

Lemma length_append (s t : string) :
  String.length (s ++ t) = String.length s + String.length t.
Proof. induction s as [| c s IH]; cbn; [reflexivity | now rewrite IH]. Qed.

Lemma startswith_append (s t : string) : PyStr.startswith (s ++ t) s = true.
Proof.
  unfold PyStr.startswith. induction s as [| c s IH]; cbn.
  - now destruct t.
  - destruct (ascii_dec c c); [exact IH | contradiction].
Qed.

Lemma drop_append (s t : string) : PyStr.drop (String.length s) (s ++ t) = t.
Proof. induction s as [| c s IH]; cbn; [now destruct t | exact IH]. Qed.

(** C9: [format_completion] is a total mapping: for every item the
    display is the name, a tab and the type in that order, and the
    insert is the name, whatever characters the name holds. *)
Theorem format_completion_pair (complete : Completion.t) :
  format_completion complete
  = (Completion.name complete ++ PyStr.TAB ++ Completion.type complete,
     Completion.name complete)
  /\ PyStr.startswith (fst (format_completion complete))
       (snd (format_completion complete)) = true
  /\ PyStr.drop (String.length (Completion.name complete))
       (fst (format_completion complete))
     = PyStr.TAB ++ Completion.type complete
  /\ String.length (fst (format_completion complete))
     = String.length (Completion.name complete) + 1
       + String.length (Completion.type complete).
Proof.
  unfold format_completion. cbn [fst snd]. repeat split.
  - apply startswith_append.
  - apply drop_append.
  - rewrite !length_append. cbn. lia.
Qed.

(** ** goto and usages *)

Lemma locations_shows (defs : list Definition_.t) : shows (locations defs) defs.
Proof.
  split; [reflexivity |].
  intros loc H. unfold locations in H. apply in_map_iff in H.
  destruct H as (d & <- & H). apply filter_In in H. destruct H as [H B].
  exists d. repeat split; [exact H |]. now destruct (Definition_.in_builtin_module d).
Qed.

Lemma all_imports (definitions : list Definition_.t) :
  forallb (fun d => String.eqb (Definition_.type d) "import") definitions = true
  <-> forall d, In d definitions -> Definition_.type d = "import".
Proof.
  rewrite forallb_forall. split; intros H d I.
  - now apply String.eqb_eq, H.
  - now apply String.eqb_eq, H.
Qed.

Section Goto.

Variable self : JediFacade.

Lemma goto_value :
  value_of (_goto self)
  = match Script.goto_assignments (script self) with
    | Raise e => Raise e
    | Return definitions =>
        if forallb (fun d => String.eqb (Definition_.type d) "import") definitions
        then match Script.goto_definitions (script self) with
             | Return resolved => Return (locations resolved)
             | Raise e => Raise e
             end
        else Return (locations definitions)
    end.
Proof.
  unfold _goto. rewrite value_of_bind, value_of_call.
  destruct (Script.goto_assignments (script self)) as [definitions | e];
    [| reflexivity].
  rewrite value_of_bind.
  destruct (forallb _ definitions); [| reflexivity].
  rewrite value_of_call.
  now destruct (Script.goto_definitions (script self)).
Qed.

Lemma usages_value :
  value_of (_usages self)
  = match Script.usages (script self) with
    | Return usages => Return (locations usages)
    | Raise e => Raise e
    end.
Proof.
  unfold _usages. rewrite value_of_bind, value_of_call.
  now destruct (Script.usages (script self)).
Qed.

(** C4: when every definition the resolve-assignment operation returns
    has type ['import'], the goto handler asks the resolve-definition
    operation and returns its results, filtered of the built-in modules,
    in place of the import-classified ones. *)
Theorem goto_import_fallback (definitions : list Definition_.t)
    (Hassign : Script.goto_assignments (script self) = Return definitions)
    (Himport : forall d, In d definitions -> Definition_.type d = "import") :
  value_of (_goto self)
  = match Script.goto_definitions (script self) with
    | Return resolved =>
        Return (map location_of
                  (filter (fun d => negb (Definition_.in_builtin_module d))
                     resolved))
    | Raise e => Raise e
    end.
Proof.
  rewrite goto_value, Hassign.
  apply all_imports in Himport. now rewrite Himport.
Qed.

(** C10: when the resolve-assignment operation returns no definition,
    the test on imports holds of the empty sequence, and the goto handler
    returns the results of the resolve-definition operation. *)
Theorem goto_empty_assignment_fallback
    (Hassign : Script.goto_assignments (script self) = Return []) :
  value_of (_goto self)
  = match Script.goto_definitions (script self) with
    | Return resolved =>
        Return (map location_of
                  (filter (fun d => negb (Definition_.in_builtin_module d))
                     resolved))
    | Raise e => Raise e
    end.
Proof.
  rewrite goto_value, Hassign. reflexivity.
Qed.

(** C5: every sequence the goto and usages handlers return holds one
    triple (module path, line, column + 1) for each engine result outside
    the built-in modules, and none for a result inside them; the handlers
    return whenever the engine operations they call do. *)
Theorem goto_usages_locations :
  (forall l, value_of (_goto self) = Return l ->
     exists defs,
       (Script.goto_assignments (script self) = Return defs
        \/ Script.goto_definitions (script self) = Return defs)
       /\ shows l defs)
  /\ (forall l, value_of (_usages self) = Return l ->
        exists defs,
          Script.usages (script self) = Return defs /\ shows l defs)
  /\ (forall assigned resolved,
         Script.goto_assignments (script self) = Return assigned ->
         Script.goto_definitions (script self) = Return resolved ->
         exists l, value_of (_goto self) = Return l)
  /\ (forall found,
         Script.usages (script self) = Return found ->
         exists l, value_of (_usages self) = Return l).
Proof.
  repeat split.
  - intros l. rewrite goto_value.
    destruct (Script.goto_assignments (script self)) as [assigned | e];
      [| discriminate].
    destruct (forallb _ assigned).
    + destruct (Script.goto_definitions (script self)) as [resolved | e];
        [| discriminate].
      intros [= <-]. exists resolved. split; [now right | apply locations_shows].
    + intros [= <-]. exists assigned. split; [now left | apply locations_shows].
  - intros l. rewrite usages_value.
    destruct (Script.usages (script self)) as [found | e]; [| discriminate].
    intros [= <-]. exists found. split; [reflexivity | apply locations_shows].
  - intros assigned resolved Ha Hr. rewrite goto_value, Ha, Hr.
    destruct (forallb _ assigned); eexists; reflexivity.
  - intros found Hu. rewrite usages_value, Hu. eexists; reflexivity.
Qed.

End Goto.

Lemma goto_import_fallback_witness :
  Script.goto_assignments (script session_on_import)
  = Return [Definition_.mk "import" "main.py" 1 7 false ""]
  /\ value_of (_goto session_on_import) = Return [("pkg/mod.py", 3%Z, 5%Z)].
Proof.
  split; [reflexivity |].
  rewrite (goto_import_fallback session_on_import
             [Definition_.mk "import" "main.py" 1 7 false ""] eq_refl).
  - reflexivity.
  - intros d [<- | []]. reflexivity.
Defined.

Lemma goto_empty_assignment_fallback_witness :
  Script.goto_assignments (script session_without_assignment) = Return []
  /\ value_of (_goto session_without_assignment)
     = Return [("pkg/mod.py", 3%Z, 5%Z)].
Proof.
  split; [reflexivity |].
  rewrite (goto_empty_assignment_fallback session_without_assignment eq_refl).
  reflexivity.
Defined.

Lemma goto_usages_locations_witness :
  (exists defs,
      (Script.goto_assignments (script session_on_import) = Return defs
       \/ Script.goto_definitions (script session_on_import) = Return defs)
      /\ shows [("pkg/mod.py", 3%Z, 5%Z)] defs)
  /\ (exists defs,
         Script.usages (script session_on_import) = Return defs
         /\ shows [("main.py", 9%Z, 1%Z)] defs).
Proof.
  split.
  - apply (proj1 (goto_usages_locations session_on_import)). reflexivity.
  - apply (proj1 (proj2 (goto_usages_locations session_on_import))). reflexivity.
Defined.

(** ** The call-argument snippets *)

Lemma nth_error_enumerate {A} (l : list A) :
  forall start i,
    nth_error (enumerate start l) i
    = option_map (fun x => (start + i, x)) (nth_error l i).
Proof.
  induction l as [| x l IH]; intros start i.
  - now destruct i.
  - destruct i as [| i]; cbn.
    + now rewrite Nat.add_0_r.
    + rewrite IH. now rewrite Nat.add_succ_r.
Qed.

Lemma length_enumerate {A} (l : list A) :
  forall start, length (enumerate start l) = length l.
Proof. induction l as [| x l IH]; intros start; cbn; [| rewrite IH]; reflexivity. Qed.

Lemma call_assigment_insert (with_values : bool) (index : nat)
    (name : string) (value : option string) :
  call_assigment with_values (index, (name, value))
  = (name ++ PyStr.TAB ++ "param",
     match value with
     | Some v =>
         if with_values then keyword_placeholder (index + 1) name v
         else placeholder (index + 1) name
     | None => placeholder (index + 1) name
     end).
Proof. destruct value as [v |]; [destruct with_values |]; reflexivity. Qed.

(** The generator's result, by what the engine says of the call at the
    cursor. *)
Lemma complete_call_assigments_value (self : JediFacade)
    (with_keywords with_values : bool) :
  value_of (_complete_call_assigments self with_keywords with_values)
  = match Script.call_signatures (script self) with
    | Return (call_definition :: _) =>
        Return (map (call_assigment with_values)
                  (enumerate 0
                     (flat_map (parameter_entry with_keywords)
                        (CallSignature.params call_definition))))
    | Return [] => Return []
    | Raise IndexError => Return []
    | Raise e => Raise e
    end.
Proof.
  unfold _complete_call_assigments. rewrite value_of_bind.
  destruct (Script.call_signatures (script self)) as [[| c rest] | e].
  - reflexivity.
  - cbn [call bind getitem nth_error ret try_except_IndexError value_of fst app].
    rewrite value_of_bind, get_function_parameters_value. reflexivity.
  - now destruct e.
Qed.

(** The entries of the generator, position by position, for the first
    call signature at the cursor. *)
Lemma call_assigments_entries (self : JediFacade)
    (with_keywords with_values : bool)
    (call_definition : CallSignature.t) (rest : list CallSignature.t)
    (parameters : list (string * option string)) :
  Script.call_signatures (script self) = Return (call_definition :: rest) ->
  value_of (get_function_parameters (Some call_definition) with_keywords)
  = Return parameters ->
  exists entries,
    value_of (_complete_call_assigments self with_keywords with_values)
    = Return entries
    /\ length entries = length parameters
    /\ forall i name value,
         nth_error parameters i = Some (name, value) ->
         nth_error entries i
         = Some (name ++ PyStr.TAB ++ "param",
                 match value with
                 | Some v =>
                     if with_values
                     then keyword_placeholder (i + 1) name v
                     else placeholder (i + 1) name
                 | None => placeholder (i + 1) name
                 end).
Proof.
  intros Hsig Hparams.
  rewrite get_function_parameters_value in Hparams. injection Hparams as <-.
  eexists. split; [| split].
  - rewrite complete_call_assigments_value, Hsig. reflexivity.
  - now rewrite length_map, length_enumerate.
  - intros i name value H.
    rewrite nth_error_map, nth_error_enumerate, H. cbn [option_map].
    now rewrite call_assigment_insert.
Qed.

(** C7: the snippet builder turns the parameter at position [i] (from 0)
    into the entry labelled [name + "\tparam"] whose insert text is
    [name=${i+1:value}] when the parameter has a value and [with_values]
    is true, and [${i+1:name}] otherwise; for the parameters
    [[("a", None); ("b", "5")]] of [(self, a, b=5, *args)] and
    [with_values] true the inserts are [${1:a}] and [b=${2:5}]. *)
Theorem call_assigments_snippets :
  (forall (self : JediFacade) (with_keywords with_values : bool)
          (call_definition : CallSignature.t) (rest : list CallSignature.t)
          (parameters : list (string * option string)),
      Script.call_signatures (script self) = Return (call_definition :: rest) ->
      value_of (get_function_parameters (Some call_definition) with_keywords)
      = Return parameters ->
      exists entries,
        value_of (_complete_call_assigments self with_keywords with_values)
        = Return entries
        /\ length entries = length parameters
        /\ forall i name value,
             nth_error parameters i = Some (name, value) ->
             nth_error entries i
             = Some (name ++ PyStr.TAB ++ "param",
                     match value with
                     | Some v =>
                         if with_values
                         then name ++ "=${" ++ PyStr.of_nat (i + 1) ++ ":" ++ v ++ "}"
                         else "${" ++ PyStr.of_nat (i + 1) ++ ":" ++ name ++ "}"
                     | None => "${" ++ PyStr.of_nat (i + 1) ++ ":" ++ name ++ "}"
                     end))
  /\ value_of (get_function_parameters (Some example_signature) true)
     = Return [("a", None); ("b", Some "5")]
  /\ value_of (_complete_call_assigments session_in_call true true)
     = Return [("a" ++ PyStr.TAB ++ "param", "${1:a}");
               ("b" ++ PyStr.TAB ++ "param", "b=${2:5}")].
Proof.
  split; [| split; reflexivity].
  intros self wk wv cd rest parameters Hsig Hparams.
  exact (call_assigments_entries self wk wv cd rest parameters Hsig Hparams).
Qed.

Lemma call_assigments_snippets_witness :
  exists entries,
    value_of (_complete_call_assigments session_in_call true true)
    = Return entries
    /\ length entries = 2
    /\ forall i name value,
         nth_error [("a", None); ("b", Some "5")] i = Some (name, value) ->
         nth_error entries i
         = Some (name ++ PyStr.TAB ++ "param",
                 match value with
                 | Some v => name ++ "=${" ++ PyStr.of_nat (i + 1) ++ ":" ++ v ++ "}"
                 | None => "${" ++ PyStr.of_nat (i + 1) ++ ":" ++ name ++ "}"
                 end).
Proof.
  exact (proj1 call_assigments_snippets session_in_call true true
           example_signature [] [("a", None); ("b", Some "5")]
           eq_refl eq_refl).
Defined.

(** ** autocomplete *)

Lemma completion_value (self : JediFacade) :
  value_of (_completion self)
  = match Script.completions (script self) with
    | Return completions => Return (map format_completion completions)
    | Raise e => Raise e
    end.
Proof.
  unfold _completion. rewrite value_of_bind, value_of_call.
  now destruct (Script.completions (script self)).
Qed.

(** The call-argument entries of autocomplete, by what the engine says
    of the call at the cursor: none outside a call, and inside one entry
    [${i+1:name}] for each parameter of the first signature listed with
    keywords. *)
Lemma autocomplete_arguments (self : JediFacade) (sigs : list CallSignature.t) :
  Script.call_signatures (script self) = Return sigs
  \/ (Script.call_signatures (script self) = Raise IndexError /\ sigs = []) ->
  exists args,
    value_of (_complete_call_assigments self true false) = Return args
    /\ match sigs with
       | [] => args = []
       | call_definition :: _ =>
           exists parameters,
             value_of (get_function_parameters (Some call_definition) true)
             = Return parameters
             /\ length args = length parameters
             /\ forall i name value,
                  nth_error parameters i = Some (name, value) ->
                  nth_error args i
                  = Some (name ++ PyStr.TAB ++ "param",
                          "${" ++ PyStr.of_nat (i + 1) ++ ":" ++ name ++ "}")
       end.
Proof.
  intros [H | [H ->]].
  - destruct sigs as [| cd rest].
    + exists []. rewrite complete_call_assigments_value, H. now split.
    + destruct (call_assigments_entries self true false cd rest _
                  H (get_function_parameters_value cd true))
        as (entries & Hv & Hlen & Hnth).
      exists entries. split; [exact Hv |].
      eexists. split; [apply get_function_parameters_value |].
      split; [exact Hlen |].
      intros i name value Hi. rewrite (Hnth i name value Hi).
      now destruct value.
  - exists []. rewrite complete_call_assigments_value, H. now split.
Qed.

(** C6: whenever the engine returns its completions and its call
    signatures (or raises [IndexError] for them), the autocomplete
    handler returns the call-argument entries, computed with keyword
    names and without values (none outside a call), followed by the
    engine's completions, less every one whose label ends with
    ["\tparam"]: no entry with that label comes from the engine's
    completions. *)
Theorem autocomplete_args_then_completions (self : JediFacade)
    (sigs : list CallSignature.t) (completions : list Completion.t)
    (Hsigs : Script.call_signatures (script self) = Return sigs
             \/ (Script.call_signatures (script self) = Raise IndexError
                 /\ sigs = []))
    (Hcompletions : Script.completions (script self) = Return completions) :
  let regular :=
    filter (fun c => negb (PyStr.endswith (fst c) (PyStr.TAB ++ "param")))
      (map format_completion completions) in
  exists args,
    value_of (get_autocomplete self) = Return (VCompletions (args ++ regular))
    /\ match sigs with
       | [] => args = []
       | call_definition :: _ =>
           exists parameters,
             value_of (get_function_parameters (Some call_definition) true)
             = Return parameters
             /\ length args = length parameters
             /\ forall i name value,
                  nth_error parameters i = Some (name, value) ->
                  nth_error args i
                  = Some (name ++ PyStr.TAB ++ "param",
                          "${" ++ PyStr.of_nat (i + 1) ++ ":" ++ name ++ "}")
       end
    /\ forall c, In c regular ->
         PyStr.endswith (fst c) (PyStr.TAB ++ "param") = false
         /\ exists item, In item completions /\ c = format_completion item.
Proof.
  intros regular.
  destruct (autocomplete_arguments self sigs Hsigs) as (args & Hargs & Hshape).
  exists args. split; [| split; [exact Hshape |]].
  - unfold get_autocomplete, autocomplete_entries.
    rewrite !value_of_bind, Hargs. cbv beta iota.
    rewrite value_of_bind, completion_value, Hcompletions. reflexivity.
  - intros c H. apply filter_In in H. destruct H as [H E].
    apply negb_true_iff in E. split; [exact E |].
    apply in_map_iff in H. destruct H as (item & <- & H). now exists item.
Qed.

Lemma autocomplete_args_then_completions_witness :
  (exists args,
      value_of (get_autocomplete session_in_call)
      = Return (VCompletions
                  (args ++ [("foo" ++ PyStr.TAB ++ "function", "foo")]))
      /\ (exists parameters,
             value_of (get_function_parameters (Some example_signature) true)
             = Return parameters
             /\ length args = length parameters
             /\ forall i name value,
                  nth_error parameters i = Some (name, value) ->
                  nth_error args i
                  = Some (name ++ PyStr.TAB ++ "param",
                          "${" ++ PyStr.of_nat (i + 1) ++ ":" ++ name ++ "}"))
      /\ forall c,
           In c [("foo" ++ PyStr.TAB ++ "function", "foo")] ->
           PyStr.endswith (fst c) (PyStr.TAB ++ "param") = false
           /\ exists item,
                In item [Completion.mk "foo" "function"; Completion.mk "a" "param"]
                /\ c = format_completion item)
  /\ (exists args,
         value_of (get_autocomplete
                     (session_completing "all" (Raise IndexError)
                        (Return [Completion.mk "foo" "function";
                                 Completion.mk "a" "param"])))
         = Return (VCompletions
                     (args ++ [("foo" ++ PyStr.TAB ++ "function", "foo")]))
         /\ args = []
         /\ forall c,
              In c [("foo" ++ PyStr.TAB ++ "function", "foo")] ->
              PyStr.endswith (fst c) (PyStr.TAB ++ "param") = false
              /\ exists item,
                   In item [Completion.mk "foo" "function";
                            Completion.mk "a" "param"]
                   /\ c = format_completion item).
Proof.
  split.
  - exact (autocomplete_args_then_completions session_in_call
             [example_signature]
             [Completion.mk "foo" "function"; Completion.mk "a" "param"]
             (or_introl eq_refl) eq_refl).
  - exact (autocomplete_args_then_completions
             (session_completing "all" (Raise IndexError)
                (Return [Completion.mk "foo" "function";
                         Completion.mk "a" "param"]))
             []
             [Completion.mk "foo" "function"; Completion.mk "a" "param"]
             (or_intror (conj eq_refl eq_refl)) eq_refl).
Defined.

(** ** The dispatcher *)

Lemma getattr_action (self : JediFacade) (action : string) :
  getattr self ("get_" ++ action)
  = if String.eqb action "goto" then ret (get_goto self)
    else if String.eqb action "usages" then ret (get_usages self)
    else if String.eqb action "funcargs" then ret (get_funcargs self)
    else if String.eqb action "autocomplete" then ret (get_autocomplete self)
    else if String.eqb action "docstring" then ret (get_docstring self)
    else if String.eqb action "signature" then ret (get_signature self)
    else raise (AttributeError ("get_" ++ action)).
Proof. reflexivity. Qed.

Lemma getattr_known (self : JediFacade) (action : string) :
  In action actions
  <-> exists handler, value_of (getattr self ("get_" ++ action)) = Return handler.
Proof.
  rewrite getattr_action. unfold actions. cbn [In].
  repeat match goal with
         | |- context [String.eqb action ?a] =>
             destruct (String.eqb_spec action a);
             [subst action; split; [eexists; reflexivity | intros _; auto 10] |]
         end.
  split.
  - intros H. repeat (destruct H as [H | H]; [congruence |]). contradiction.
  - intros [h H]. discriminate.
Qed.

Lemma getattr_unknown (self : JediFacade) (action : string) :
  ~ In action actions ->
  getattr self ("get_" ++ action) = raise (AttributeError ("get_" ++ action)).
Proof.
  intros H. rewrite getattr_action. unfold actions in H. cbn [In] in H.
  repeat match goal with
         | |- context [String.eqb action ?a] =>
             destruct (String.eqb_spec action a);
             [exfalso; subst action; apply H; auto 10 |]
         end.
  reflexivity.
Qed.

(** What [get] returns and logs, by the outcome of the guarded call. *)
Lemma get_outcome (self : JediFacade) (action : string) :
  match value_of (handler <- getattr self ("get_" ++ action) ;; handler) with
  | Return v =>
      value_of (get self action) = Return v
  | Raise e =>
      value_of (get self action) = Return VNone
      /\ In (failure_record action e) (log_of (get self action))
  end.
Proof.
  unfold get. rewrite value_of_try_except, log_of_try_except.
  destruct (value_of (handler <- getattr self ("get_" ++ action) ;; handler))
    as [v | e]; [reflexivity |].
  split; [reflexivity |].
  apply in_or_app. right. left. reflexivity.
Qed.

(** C1: [get] never raises, whatever the action name.  When no method is
    named for the action, or when the method chosen raises, the exception
    is caught, a record naming the action is logged with it, and the call
    returns [None]; a result of the method is returned as it is. *)
Theorem get_never_raises (self : JediFacade) (action : string) :
  (exists v, value_of (get self action) = Return v)
  /\ (~ In action actions ->
      value_of (get self action) = Return VNone
      /\ In (failure_record action (AttributeError ("get_" ++ action)))
            (log_of (get self action)))
  /\ (forall handler e,
         value_of (getattr self ("get_" ++ action)) = Return handler ->
         value_of handler = Raise e ->
         value_of (get self action) = Return VNone
         /\ In (LogRecord ERROR ("`JediFacade.get_" ++ action ++ "` failed")
                  (Some e))
               (log_of (get self action)))
  /\ (forall handler v,
         value_of (getattr self ("get_" ++ action)) = Return handler ->
         value_of handler = Return v ->
         value_of (get self action) = Return v).
Proof.
  pose proof (get_outcome self action) as O.
  rewrite value_of_bind in O.
  split; [| split; [| split]].
  - destruct (value_of (getattr self ("get_" ++ action))) as [h | e].
    + destruct (value_of h); [eexists; exact O | exists VNone; apply O].
    + exists VNone. apply O.
  - intros Hunknown.
    rewrite (getattr_unknown self action Hunknown) in O. exact O.
  - intros handler e Hattr Hraise. rewrite Hattr, Hraise in O. exact O.
  - intros handler v Hattr Hreturn. rewrite Hattr, Hreturn in O. exact O.
Qed.

Lemma get_never_raises_witness :
  (value_of (get session_in_call "rename") = Return VNone
   /\ In (failure_record "rename" (AttributeError "get_rename"))
         (log_of (get session_in_call "rename")))
  /\ (value_of (get (Build_JediFacade
                       (Script.mk (Return []) (Raise (EngineError "ValueError"))
                          (Return []) (Return []) (Return [])) "all") "goto")
      = Return VNone
      /\ In (failure_record "goto" (EngineError "ValueError"))
            (log_of (get (Build_JediFacade
                            (Script.mk (Return [])
                               (Raise (EngineError "ValueError"))
                               (Return []) (Return []) (Return [])) "all")
                         "goto")))
  /\ value_of (get session_on_import "goto")
     = Return (VLocations [("pkg/mod.py", 3%Z, 5%Z)]).
Proof.
  split; [| split].
  - apply (proj1 (proj2 (get_never_raises session_in_call "rename"))).
    intros H. repeat (destruct H as [H | H]; [discriminate |]). contradiction.
  - apply (proj1 (proj2 (proj2 (get_never_raises _ "goto")))) with
      (handler := get_goto (Build_JediFacade
                    (Script.mk (Return []) (Raise (EngineError "ValueError"))
                       (Return []) (Return []) (Return [])) "all"));
      reflexivity.
  - apply (proj2 (proj2 (proj2 (get_never_raises session_on_import "goto"))))
      with (handler := get_goto session_on_import); reflexivity.
Defined.

(** ** More on get_function_parameters *)

Lemma log_of_bind {A B} (m : Py A) (f : A -> Py B) :
  log_of (bind m f)
  = match value_of m with
    | Return a => (log_of m ++ log_of (f a))%list
    | Raise e => log_of m
    end.
Proof.
  destruct m as [[a | e] l]; cbn; [destruct (f a) |]; reflexivity.
Qed.

(** Where a listed pair comes from. *)
Lemma parameter_entry_origin (with_keywords : bool) (param : Param.t)
    (name : string) (v : option string) :
  In (name, v) (parameter_entry with_keywords param) ->
  Param.name param = Some name
  /\ (name <> "" /\ name <> "self" /\ name <> "...")
  /\ PyStr.contains "*" (Param.description param) = false.
Proof.
  unfold parameter_entry.
  destruct (PyStr.contains "*" (Param.description param)); [contradiction |].
  destruct (Param.name param) as [n |]; [| contradiction].
  destruct (String.eqb_spec n ""); [contradiction |].
  destruct (String.eqb_spec n "self"); [contradiction |].
  destruct (String.eqb_spec n "..."); [contradiction |].
  cbn [orb]. intros H.
  assert (n = name) as <-.
  { destruct (PyStr.contains "=" _).
    - destruct (PyStr.rpartition _ _) as [[? ?] |]; [| contradiction].
      destruct with_keywords; [| contradiction].
      destruct H as [H | []]. congruence.
    - destruct H as [H | []]. congruence. }
  repeat split; assumption.
Qed.

Lemma length_flat_map_le {A B} (f : A -> list B) (l : list A) :
  (forall x, length (f x) <= 1) -> length (flat_map f l) <= length l.
Proof.
  intros H. induction l as [| x l IH]; cbn; [lia |].
  rewrite length_app. specialize (H x). lia.
Qed.

Lemma parameter_entry_short (with_keywords : bool) (param : Param.t) :
  length (parameter_entry with_keywords param) <= 1.
Proof.
  unfold parameter_entry.
  repeat match goal with
         | |- context [if ?b then _ else _] => destruct b
         | |- context [match ?o with Some _ => _ | None => _ end] => destruct o
         | |- context [let (_, _) := ?x in _] => destruct x
         end; cbn; lia.
Qed.

(** X1: the helper never lists the receiver [self], the placeholder [...]
    or a parameter without a name, whatever the signature and the flag. *)
Theorem gfp_never_lists_self_or_dots
    (call_signature : option CallSignature.t) (with_keywords : bool) :
  exists out,
    value_of (get_function_parameters call_signature with_keywords) = Return out
    /\ forall name v,
         In (name, v) out -> name <> "" /\ name <> "self" /\ name <> "...".
Proof.
  destruct call_signature as [sig |].
  2:{ exists []. split; [reflexivity | intros ? ? []]. }
  eexists. split; [apply get_function_parameters_value |].
  intros name v H. apply in_flat_map in H. destruct H as (p & _ & H).
  now apply parameter_entry_origin in H.
Qed.

(** X2: whatever the flag, every listed name is the name of a declared
    parameter whose description has no [*], and the list is no longer
    than the declaration. *)
Theorem gfp_lists_declared_unstarred
    (call_signature : option CallSignature.t) (with_keywords : bool) :
  exists out,
    value_of (get_function_parameters call_signature with_keywords) = Return out
    /\ length out <= length (declared_params call_signature)
    /\ forall name v,
         In (name, v) out ->
         exists param,
           In param (declared_params call_signature)
           /\ Param.name param = Some name
           /\ PyStr.contains "*" (Param.description param) = false.
Proof.
  destruct call_signature as [sig |]; cbn [declared_params].
  2:{ exists []. split; [reflexivity |]. split; [cbn; lia | intros ? ? []]. }
  eexists. split; [apply get_function_parameters_value |]. split.
  - apply length_flat_map_le. intros p. apply parameter_entry_short.
  - intros name v H. apply in_flat_map in H. destruct H as (p & I & H).
    exists p. apply parameter_entry_origin in H. tauto.
Qed.

Lemma filter_flat_map {A B} (keep : B -> bool) (f : A -> list B) (l : list A) :
  filter keep (flat_map f l) = flat_map (fun x => filter keep (f x)) l.
Proof.
  induction l as [| x l IH]; cbn; [reflexivity |].
  now rewrite filter_app, IH.
Qed.

Lemma parameter_entry_keywords_off (param : Param.t) :
  parameter_entry false param = filter no_value (parameter_entry true param).
Proof.
  unfold parameter_entry.
  destruct (PyStr.contains "*" (Param.description param)); [reflexivity |].
  destruct (Param.name param) as [n |]; [| reflexivity].
  destruct (String.eqb n "" || String.eqb n "self" || String.eqb n "...");
    [reflexivity |].
  destruct (PyStr.contains "=" _); [| reflexivity].
  now destruct (PyStr.rpartition _ _) as [[? ?] |].
Qed.

(** X3: turning the keywords off only takes the defaulted parameters away:
    the list without keywords is the list with keywords less its pairs
    that carry a value. *)
Theorem gfp_keywords_off_drops_defaults (call_signature : option CallSignature.t) :
  exists with_defaults without,
    value_of (get_function_parameters call_signature true) = Return with_defaults
    /\ value_of (get_function_parameters call_signature false) = Return without
    /\ without = filter no_value with_defaults.
Proof.
  destruct call_signature as [sig |].
  2:{ exists [], []. repeat split. }
  do 2 eexists. rewrite !get_function_parameters_value.
  split; [reflexivity |]. split; [reflexivity |].
  rewrite filter_flat_map. apply flat_map_ext.
  intros p. apply parameter_entry_keywords_off.
Qed.

Lemma lstrip_lstrip (s : string) : PyStr.lstrip (PyStr.lstrip s) = PyStr.lstrip s.
Proof.
  induction s as [| c s IH]; [reflexivity |].
  cbn [PyStr.lstrip]. destruct (PyStr.isspace c) eqn:E; [exact IH |].
  cbn [PyStr.lstrip]. now rewrite E.
Qed.

Lemma lstrip_not_space (s : string) :
  match PyStr.lstrip s with
  | EmptyString => True
  | String c _ => PyStr.isspace c = false
  end.
Proof.
  induction s as [| c s IH]; [exact I |].
  cbn [PyStr.lstrip]. destruct (PyStr.isspace c) eqn:E; [exact IH | exact E].
Qed.

Lemma contains_lstrip (sep s : string) :
  PyStr.contains sep s = false -> PyStr.contains sep (PyStr.lstrip s) = false.
Proof.
  induction s as [| c s IH]; intros H; [exact H |].
  cbn [PyStr.lstrip]. destruct (PyStr.isspace c); [| exact H].
  apply IH. eapply contains_tail; eauto.
Qed.

(** X4: a value is listed only with keywords, and it is the text after
    the last [=] of the description of a declared parameter of that
    name (every ["param "] removed first), stripped on the left: it holds
    no [=] and does not begin with whitespace.  With keywords every
    declared parameter that is not skipped and whose description holds an
    [=] is listed with that value. *)
Theorem gfp_default_values_stripped
    (call_signature : option CallSignature.t) (with_keywords : bool) :
  exists out,
    value_of (get_function_parameters call_signature with_keywords) = Return out
    /\ (forall name v,
           In (name, Some v) out ->
           with_keywords = true
           /\ (exists param before after,
                  In param (declared_params call_signature)
                  /\ Param.name param = Some name
                  /\ PyStr.replace "param " "" (Param.description param)
                     = before ++ "=" ++ after
                  /\ PyStr.contains "=" after = false
                  /\ v = PyStr.lstrip after)
           /\ PyStr.contains "=" v = false
           /\ PyStr.lstrip v = v
           /\ match v with
              | EmptyString => True
              | String c _ => PyStr.isspace c = false
              end)
    /\ (with_keywords = true ->
        forall param name,
          In param (declared_params call_signature) ->
          Param.name param = Some name ->
          name <> "" /\ name <> "self" /\ name <> "..." ->
          PyStr.contains "*" (Param.description param) = false ->
          PyStr.contains "=" (Param.description param) = true ->
          exists before after,
            PyStr.replace "param " "" (Param.description param)
            = before ++ "=" ++ after
            /\ PyStr.contains "=" after = false
            /\ In (name, Some (PyStr.lstrip after)) out).
Proof.
  destruct call_signature as [sig |]; cbn [declared_params].
  2:{ exists []. split; [reflexivity |]. split; [intros ? ? [] |].
      intros _ ? ? []. }
  eexists. split; [apply get_function_parameters_value |]. split.
  - intros name v H. apply in_flat_map in H. destruct H as (p & Hp & H).
    destruct (parameter_entry_origin _ _ _ _ H) as (Hname & _ & _).
    unfold parameter_entry in H.
    destruct (PyStr.contains "*" (Param.description p)); [contradiction |].
    destruct (Param.name p) as [n |] eqn:Hn; [| contradiction].
    destruct (String.eqb n "" || String.eqb n "self" || String.eqb n "...");
      [contradiction |].
    destruct (PyStr.contains "=" _).
    2:{ destruct H as [H | []]. discriminate. }
    destruct (PyStr.rpartition _ _) as [[before after] |] eqn:R; [| contradiction].
    destruct with_keywords; [| contradiction].
    destruct H as [H | []]. injection H as _ <-.
    destruct (rpartition_last _ _ _ _ _ R) as [Hsplit Hlast].
    split; [reflexivity |]. split; [| split; [| split]].
    + exists p, before, after. repeat split; solve [assumption | reflexivity | congruence].
    + now apply contains_lstrip.
    + apply lstrip_lstrip.
    + apply lstrip_not_space.
  - intros -> p name Hp Hname Hreal Hstar Heq.
    destruct (keyword_entry_of_description p name Hname Hreal Hstar Heq)
      as (before & after & Hsplit & Hlast & E).
    exists before, after. split; [exact Hsplit |]. split; [exact Hlast |].
    apply in_flat_map. exists p. split; [exact Hp |]. rewrite E. now left.
Qed.

Lemma get_function_parameters_body_log (with_keywords : bool)
    (params : list (string * option string)) (param : Param.t) :
  log_of (get_function_parameters_body with_keywords params param)
  = [debug_record param].
Proof.
  unfold get_function_parameters_body, PyStr.rsplit1.
  rewrite log_of_bind. cbn [value_of logger_debug fst log_of snd].
  repeat match goal with
         | |- context [if ?b then _ else _] => destruct b
         | |- context [match ?o with Some _ => _ | None => _ end] => destruct o
         | |- context [let (_, _) := ?x in _] => destruct x
         end; reflexivity.
Qed.

Lemma for_each_parameters_log (with_keywords : bool) (l : list Param.t)
    (acc : list (string * option string)) :
  log_of (for_each l (get_function_parameters_body with_keywords) acc)
  = map debug_record l.
Proof.
  revert acc. induction l as [| p l IH]; intros acc; cbn [for_each map].
  - reflexivity.
  - rewrite log_of_bind, get_function_parameters_body_value,
      get_function_parameters_body_log, IH. reflexivity.
Qed.

(** X5: the helper logs one debug record for each declared parameter, in
    declaration order, the skipped ones included, and nothing else;
    without a call signature it logs nothing. *)
Theorem gfp_logs_every_parameter
    (call_signature : option CallSignature.t) (with_keywords : bool) :
  log_of (get_function_parameters call_signature with_keywords)
  = map debug_record (declared_params call_signature)
  /\ length (log_of (get_function_parameters call_signature with_keywords))
     = length (declared_params call_signature)
  /\ forall r,
       In r (log_of (get_function_parameters call_signature with_keywords)) ->
       is_error r = false.
Proof.
  assert (E : log_of (get_function_parameters call_signature with_keywords)
              = map debug_record (declared_params call_signature)).
  { destruct call_signature as [sig |]; [| reflexivity].
    apply for_each_parameters_log. }
  rewrite E. split; [reflexivity |]. split; [apply length_map |].
  intros r H. apply in_map_iff in H. now destruct H as (p & <- & _).
Qed.

(** ** More on the call-argument snippets and autocomplete *)

Lemma endswith_append (s p : string) : PyStr.endswith (s ++ p) p = true.
Proof.
  unfold PyStr.endswith. rewrite length_append.
  replace (String.length s + String.length p - String.length p)
    with (String.length s) by lia.
  rewrite drop_append, String.eqb_refl, andb_true_r.
  apply Nat.leb_le. lia.
Qed.

Lemma call_assigment_label (with_values : bool)
    (entry : nat * (string * option string)) :
  is_param_label (call_assigment with_values entry) = true.
Proof.
  destruct entry as [index [name value]].
  rewrite call_assigment_insert. apply endswith_append.
Qed.

Lemma call_assigments_nothing (self : JediFacade)
    (with_keywords with_values : bool) :
  Script.call_signatures (script self) = Return []
  \/ Script.call_signatures (script self) = Raise IndexError ->
  _complete_call_assigments self with_keywords with_values = (Return [], []).
Proof.
  unfold _complete_call_assigments. intros [H | H]; rewrite H; reflexivity.
Qed.

(** X6: outside a call the generator yields nothing: an empty list of call
    signatures and an [IndexError] raised by the engine itself end it
    alike, silently; any other exception of the engine propagates. *)
Theorem call_assigments_outside_call (self : JediFacade)
    (with_keywords with_values : bool) :
  (Script.call_signatures (script self) = Return []
   \/ Script.call_signatures (script self) = Raise IndexError ->
   _complete_call_assigments self with_keywords with_values = (Return [], []))
  /\ (forall e,
         Script.call_signatures (script self) = Raise e ->
         e <> IndexError ->
         _complete_call_assigments self with_keywords with_values
         = (Raise e, [])).
Proof.
  split; [apply call_assigments_nothing |].
  unfold _complete_call_assigments.
  intros e H N. rewrite H. destruct e; [contradiction | |]; reflexivity.
Qed.

Lemma call_assigments_outside_call_witness :
  _complete_call_assigments
    (session_completing "all" (Raise IndexError) (Return [])) true true
  = (Return [], [])
  /\ _complete_call_assigments
       (session_completing "all" (Raise (EngineError "ValueError")) (Return []))
       true true
     = (Raise (EngineError "ValueError"), []).
Proof.
  split.
  - apply (proj1 (call_assigments_outside_call
                    (session_completing "all" (Raise IndexError) (Return []))
                    true true)).
    right. reflexivity.
  - apply (proj2 (call_assigments_outside_call
                    (session_completing "all"
                       (Raise (EngineError "ValueError")) (Return []))
                    true true)); [reflexivity | discriminate].
Defined.

Lemma call_assigments_labels (self : JediFacade)
    (with_keywords with_values : bool) (entries : list (string * string)) :
  value_of (_complete_call_assigments self with_keywords with_values)
  = Return entries ->
  forallb is_param_label entries = true.
Proof.
  rewrite complete_call_assigments_value.
  destruct (Script.call_signatures (script self)) as [[| c rest] | e].
  - now intros [= <-].
  - intros [= <-]. apply forallb_forall. intros x H.
    apply in_map_iff in H. destruct H as (entry & <- & _).
    apply call_assigment_label.
  - destruct e; [now intros [= <-] | discriminate | discriminate].
Qed.

Lemma filter_all {A} (f : A -> bool) (l : list A) :
  forallb f l = true -> filter f l = l.
Proof.
  induction l as [| x l IH]; cbn; [reflexivity |].
  intros H. apply andb_true_iff in H. destruct H as [Hx H].
  now rewrite Hx, IH.
Qed.

Lemma filter_none {A} (f : A -> bool) (l : list A) :
  filter f (filter (fun x => negb (f x)) l) = [].
Proof.
  induction l as [| x l IH]; cbn; [reflexivity |].
  destruct (f x) eqn:E; cbn; [exact IH | now rewrite E].
Qed.

(** X7: in the output of autocomplete the entries labelled ["\tparam"] are
    exactly the call-argument entries, which come first; an engine
    completion of type [param] is never in what follows them. *)
Theorem autocomplete_param_entries_are_call_arguments (self : JediFacade)
    (args : list (string * string)) (completions : list Completion.t)
    (Hargs : value_of (_complete_call_assigments self true false) = Return args)
    (Hcompletions : Script.completions (script self) = Return completions) :
  exists out,
    value_of (get_autocomplete self) = Return (VCompletions out)
    /\ filter is_param_label out = args
    /\ firstn (length args) out = args
    /\ forall name,
         ~ In (format_completion (Completion.mk name "param"))
              (skipn (length args) out).
Proof.
  eexists. split; [| split; [| split]].
  - unfold get_autocomplete, autocomplete_entries.
    rewrite !value_of_bind, Hargs. cbv beta iota.
    rewrite value_of_bind, completion_value, Hcompletions. reflexivity.
  - rewrite filter_app, filter_none, app_nil_r.
    apply filter_all. now apply (call_assigments_labels self true false).
  - rewrite firstn_app, Nat.sub_diag, firstn_all. cbn. apply app_nil_r.
  - intros name H. rewrite skipn_app, Nat.sub_diag, skipn_all in H.
    cbn [skipn app] in H. apply filter_In in H. destruct H as [_ H].
    unfold is_param_label, format_completion in H. cbn [fst] in H.
    cbn [Completion.name Completion.type] in H.
    rewrite endswith_append in H. discriminate.
Qed.

Lemma autocomplete_param_entries_are_call_arguments_witness :
  exists out,
    value_of (get_autocomplete session_in_call) = Return (VCompletions out)
    /\ filter is_param_label out
       = [("a" ++ PyStr.TAB ++ "param", "${1:a}");
          ("b" ++ PyStr.TAB ++ "param", "${2:b}")]
    /\ firstn 2 out
       = [("a" ++ PyStr.TAB ++ "param", "${1:a}");
          ("b" ++ PyStr.TAB ++ "param", "${2:b}")]
    /\ forall name,
         ~ In (format_completion (Completion.mk name "param")) (skipn 2 out).
Proof.
  exact (autocomplete_param_entries_are_call_arguments session_in_call
           [("a" ++ PyStr.TAB ++ "param", "${1:a}");
            ("b" ++ PyStr.TAB ++ "param", "${2:b}")]
           [Completion.mk "foo" "function"; Completion.mk "a" "param"]
           eq_refl eq_refl).
Defined.

(** ** funcargs *)

Lemma enumerate_map {A B} (f : A -> B) (l : list A) :
  forall start,
    enumerate start (map f l)
    = map (fun e => (fst e, f (snd e))) (enumerate start l).
Proof.
  induction l as [| x l IH]; intros start; cbn; [| rewrite IH]; reflexivity.
Qed.

Lemma without_values (out : list (string * option string)) :
  (forall name v, In (name, v) out -> v = None) ->
  out = map (fun name => (name, None)) (map fst out).
Proof.
  induction out as [| [name v] out IH]; intros H; cbn; [reflexivity |].
  rewrite (H name v (or_introl eq_refl)). f_equal.
  apply IH. intros n w I. apply (H n w). now right.
Qed.

Lemma parameters_without_keywords (sig : CallSignature.t) :
  forall name v,
    In (name, v) (flat_map (parameter_entry false) (CallSignature.params sig)) ->
    v = None.
Proof.
  intros name v H. apply in_flat_map in H. destruct H as (p & _ & H).
  destruct (parameter_entry_without_keywords p) as [E | (_ & E & _)];
    rewrite E in H; [contradiction |].
  unfold named_entry in H. destruct (Param.name p); [| contradiction].
  destruct H as [H | []]. congruence.
Qed.

(** X8: outside a call, funcargs is the empty string: the dispatcher returns
    it, not [None], and logs nothing. *)
Theorem funcargs_outside_call (self : JediFacade)
    (Hnone : Script.call_signatures (script self) = Return []
             \/ Script.call_signatures (script self) = Raise IndexError) :
  get self "funcargs" = (Return (VStr ""), []).
Proof.
  unfold get. cbn [append getattr String.eqb Ascii.eqb Bool.eqb].
  unfold get_funcargs.
  rewrite (call_assigments_nothing self _ _ Hnone). reflexivity.
Qed.

Lemma funcargs_outside_call_witness :
  get (session_completing "all" (Raise IndexError) (Return [])) "funcargs"
  = (Return (VStr ""), []).
Proof.
  apply funcargs_outside_call. right. reflexivity.
Defined.

(** X9: unless the mode is exactly ["all"], funcargs numbers from 1 the
    parameters that have no default and joins their placeholders
    [${k:name}] with [", "]: no default value and no defaulted parameter
    is in the snippet. *)
Theorem funcargs_names_only (self : JediFacade)
    (call_definition : CallSignature.t) (rest : list CallSignature.t)
    (Hmode : auto_complete_function_params self <> "all")
    (Hsig : Script.call_signatures (script self)
            = Return (call_definition :: rest)) :
  exists names,
    value_of (get_function_parameters (Some call_definition) false)
    = Return (map (fun name => (name, None)) names)
    /\ value_of (get_funcargs self)
       = Return (VStr (PyStr.join ", "
                         (map (fun e => placeholder (fst e + 1) (snd e))
                            (enumerate 0 names)))).
Proof.
  pose proof (without_values _ (parameters_without_keywords call_definition)) as E.
  exists (map fst (flat_map (parameter_entry false)
                     (CallSignature.params call_definition))).
  split.
  - rewrite get_function_parameters_value. now rewrite <- E.
  - unfold get_funcargs. apply String.eqb_neq in Hmode. rewrite Hmode.
    rewrite value_of_bind, complete_call_assigments_value, Hsig.
    cbn [value_of ret fst]. do 2 f_equal.
    rewrite E at 1. rewrite enumerate_map, !map_map.
    reflexivity.
Qed.

Lemma funcargs_names_only_witness :
  exists names,
    value_of (get_function_parameters (Some example_signature) false)
    = Return (map (fun name => (name, None)) names)
    /\ value_of (get_funcargs
                   (session_completing "basic" (Return [example_signature])
                      (Return [])))
       = Return (VStr (PyStr.join ", "
                         (map (fun e => placeholder (fst e + 1) (snd e))
                            (enumerate 0 names)))).
Proof.
  apply (funcargs_names_only
           (session_completing "basic" (Return [example_signature]) (Return []))
           example_signature []); [discriminate | reflexivity].
Defined.

(** ** docstring and signature *)

Lemma append_nil_r (s : string) : s ++ "" = s.
Proof. induction s as [| c s IH]; cbn; [| rewrite IH]; reflexivity. Qed.

Lemma append_assoc (s t u : string) : (s ++ t) ++ u = s ++ t ++ u.
Proof. induction s as [| c s IH]; cbn; [| rewrite IH]; reflexivity. Qed.

Lemma contains_char_nil (a : ascii) :
  PyStr.contains (String a EmptyString) "" = false.
Proof. reflexivity. Qed.

Lemma contains_char_app (a : ascii) (s t : string) :
  PyStr.contains (String a EmptyString) (s ++ t)
  = PyStr.contains (String a EmptyString) s
    || PyStr.contains (String a EmptyString) t.
Proof.
  induction s as [| c s IH]; [reflexivity |].
  cbn [append]. now rewrite !contains_char_cons, IH, orb_assoc.
Qed.

(** A replacement brings in no character that neither the text nor the
    new piece holds. *)
Lemma replace_from_keeps_out (a : ascii) (old new s : string) :
  PyStr.contains (String a EmptyString) new = false ->
  forall skip,
    PyStr.contains (String a EmptyString) s = false ->
    PyStr.contains (String a EmptyString) (PyStr.replace_from old new skip s)
    = false.
Proof.
  intros Hnew. induction s as [| c s IH]; intros skip H; [reflexivity |].
  pose proof H as Hc. rewrite contains_char_cons in Hc.
  apply orb_false_iff in Hc. destruct Hc as [Hc Hs].
  cbn [PyStr.replace_from]. destruct skip as [| k]; [| now apply IH].
  destruct (PyStr.startswith (String c s) old).
  - rewrite contains_char_app, Hnew. now apply IH.
  - rewrite contains_char_cons, Hc. now apply IH.
Qed.

(** Replacing every newline leaves none. *)
Lemma replace_newline_none (s : string) :
  PyStr.contains PyStr.NL (PyStr.replace PyStr.NL " " s) = false.
Proof.
  unfold PyStr.NL. cbn [PyStr.replace].
  induction s as [| c s IH]; [reflexivity |].
  cbn [PyStr.replace_from]. unfold PyStr.startswith. cbn [String.prefix].
  destruct (ascii_dec (ascii_of_nat 10) c) as [<- | N].
  - replace (String.prefix "" s) with true by now destruct s.
    cbn [String.length Nat.sub append].
    rewrite contains_char_cons, IH. reflexivity.
  - rewrite contains_char_cons, IH. apply Ascii.eqb_neq in N. now rewrite N.
Qed.

Lemma calltip_one_line (paragraph : string) :
  PyStr.contains PyStr.NL (calltip paragraph) = false.
Proof.
  unfold calltip.
  change (PyStr.replace " = " "=" (PyStr.replace PyStr.NL " " paragraph))
    with (PyStr.replace_from " = " "=" 0 (PyStr.replace PyStr.NL " " paragraph)).
  apply replace_from_keeps_out; [reflexivity | apply replace_newline_none].
Qed.

Lemma split_from_first (sep : string) (s : string) :
  forall skip cur,
    exists first pieces, PyStr.split_from sep skip cur s = first :: pieces.
Proof.
  induction s as [| c s IH]; intros skip cur; cbn [PyStr.split_from].
  - now exists cur, [].
  - destruct skip as [| k]; [| apply IH].
    destruct (PyStr.startswith (String c s) sep); [| apply IH].
    now exists cur, (PyStr.split_from sep (String.length sep - 1) "" s).
Qed.

(** Without the separator in it, a text is its own only piece. *)
Lemma split_from_whole (sep : string) (s : string) :
  forall cur,
    PyStr.contains sep s = false ->
    PyStr.split_from sep 0 cur s = [cur ++ s].
Proof.
  induction s as [| c s IH]; intros cur H; cbn [PyStr.split_from].
  - now rewrite append_nil_r.
  - cbn [PyStr.contains] in H. apply orb_false_iff in H. destruct H as [P H].
    rewrite P, (IH _ H), append_assoc. reflexivity.
Qed.

(** The first piece of a text cut at blank lines is its first paragraph:
    what precedes the first occurrence of two newlines in a row. *)
Lemma split_from_paragraph (paragraph tail : string) :
  forall cur,
    PyStr.contains (PyStr.NL ++ PyStr.NL) (paragraph ++ PyStr.NL) = false ->
    exists pieces,
      PyStr.split_from (PyStr.NL ++ PyStr.NL) 0 cur
        (paragraph ++ (PyStr.NL ++ PyStr.NL) ++ tail)
      = (cur ++ paragraph) :: pieces.
Proof.
  unfold PyStr.NL. cbn [append].
  induction paragraph as [| c p IH]; intros cur H.
  - cbn [append PyStr.split_from]. unfold PyStr.startswith. cbn.
    replace (String.prefix "" tail) with true by now destruct tail.
    rewrite append_nil_r. eauto.
  - cbn [append PyStr.contains] in H. apply orb_false_iff in H.
    destruct H as [P H].
    cbn [append PyStr.split_from].
    assert (Q : PyStr.startswith
                  (String c (p ++ String (ascii_of_nat 10)
                                     (String (ascii_of_nat 10) tail)))
                  (String (ascii_of_nat 10) (String (ascii_of_nat 10) ""))
                = false).
    { revert P. unfold PyStr.startswith. cbn [String.prefix].
      destruct (ascii_dec (ascii_of_nat 10) c); [| reflexivity].
      destruct p as [| c' p]; cbn [append String.prefix].
      - destruct (ascii_dec (ascii_of_nat 10) (ascii_of_nat 10));
          [discriminate | contradiction].
      - destruct (ascii_dec (ascii_of_nat 10) c'); [| reflexivity].
        replace (String.prefix "" (p ++ String (ascii_of_nat 10) ""))
          with true by now destruct p.
        discriminate. }
    rewrite Q. destruct (IH (cur ++ String c "") H) as [pieces E].
    rewrite E, append_assoc. eauto.
Qed.

Lemma replace_from_absent (old new s : string) :
  PyStr.contains old s = false -> PyStr.replace_from old new 0 s = s.
Proof.
  induction s as [| c s IH]; intros H; [reflexivity |].
  cbn [PyStr.contains] in H. apply orb_false_iff in H. destruct H as [P H].
  cbn [PyStr.replace_from]. now rewrite P, IH.
Qed.

Lemma no_newline_no_blank_line (s : string) :
  PyStr.contains PyStr.NL s = false ->
  PyStr.contains (PyStr.NL ++ PyStr.NL) s = false.
Proof.
  unfold PyStr.NL. cbn [append].
  induction s as [| c s IH]; intros H; [reflexivity |].
  cbn [PyStr.contains] in *. apply orb_false_iff in H. destruct H as [P H].
  rewrite (IH H), orb_false_r.
  revert P. unfold PyStr.startswith. cbn [String.prefix].
  destruct (ascii_dec (ascii_of_nat 10) c); [| reflexivity].
  replace (String.prefix "" s) with true by now destruct s.
  discriminate.
Qed.

Lemma signature_of_first (self : JediFacade)
    (d : Definition_.t) (rest : list Definition_.t) (first : string)
    (pieces : list string) :
  Script.goto_definitions (script self) = Return (d :: rest) ->
  PyStr.split (PyStr.NL ++ PyStr.NL) (Definition_.docstring d)
  = first :: pieces ->
  get self "signature" = (Return (VStr (calltip first)), []).
Proof.
  intros H E. unfold get. cbn [append getattr String.eqb Ascii.eqb Bool.eqb].
  unfold get_signature, _docstring. rewrite H.
  cbn [call bind]. rewrite E. reflexivity.
Qed.

(** X10: when the engine resolves no definition, docstring and signature
    return [None] without any record in the log; otherwise docstring is
    the text of the first definition as it is, the others being
    ignored. *)
Theorem docstring_of_first_definition (self : JediFacade) :
  (Script.goto_definitions (script self) = Return [] ->
   get self "docstring" = (Return VNone, [])
   /\ get self "signature" = (Return VNone, []))
  /\ (forall d rest,
         Script.goto_definitions (script self) = Return (d :: rest) ->
         get self "docstring" = (Return (VStr (Definition_.docstring d)), [])).
Proof.
  split.
  - intros H. unfold get. cbn [append getattr String.eqb Ascii.eqb Bool.eqb].
    unfold get_docstring, get_signature, _docstring. rewrite H. split; reflexivity.
  - intros d rest H. unfold get.
    cbn [append getattr String.eqb Ascii.eqb Bool.eqb].
    unfold get_docstring, _docstring. rewrite H. reflexivity.
Qed.

Lemma docstring_of_first_definition_witness :
  (get session_in_call "docstring" = (Return VNone, [])
   /\ get session_in_call "signature" = (Return VNone, []))
  /\ get session_without_assignment "docstring" = (Return (VStr "doc"), []).
Proof.
  split.
  - apply (proj1 (docstring_of_first_definition session_in_call)). reflexivity.
  - apply (proj2 (docstring_of_first_definition session_without_assignment)
             (Definition_.mk "function" "pkg/mod.py" 3 4 false "doc") []).
    reflexivity.
Defined.

(** X11: whenever a definition is resolved, signature returns a string, never
    [None] nor an error, and the string holds no newline. *)
Theorem signature_is_one_line (self : JediFacade)
    (d : Definition_.t) (rest : list Definition_.t)
    (Hdefs : Script.goto_definitions (script self) = Return (d :: rest)) :
  exists line,
    get self "signature" = (Return (VStr line), [])
    /\ PyStr.contains PyStr.NL line = false.
Proof.
  destruct (split_from_first (PyStr.NL ++ PyStr.NL) (Definition_.docstring d) 0 "")
    as (first & pieces & E).
  exists (calltip first). split.
  - exact (signature_of_first self d rest first pieces Hdefs E).
  - apply calltip_one_line.
Qed.

Lemma signature_is_one_line_witness :
  exists line,
    get (session_resolving (Return [])
           (Return [Definition_.mk "function" "m.py" 1 0 false
                      ("f(a, b = 5)" ++ PyStr.NL ++ "  -> int" ++ PyStr.NL
                       ++ PyStr.NL ++ "Adds.")]))
        "signature"
    = (Return (VStr line), [])
    /\ PyStr.contains PyStr.NL line = false.
Proof.
  eapply signature_is_one_line. reflexivity.
Defined.

(** X12: the signature is made from the first paragraph of the docstring
    alone: the text before the first blank line, or all of it when there
    is none, with each newline turned into a space and then each [" = "]
    into ["="]. *)
Theorem signature_is_first_paragraph (self : JediFacade)
    (d : Definition_.t) (rest : list Definition_.t)
    (Hdefs : Script.goto_definitions (script self) = Return (d :: rest)) :
  (forall paragraph tail,
      Definition_.docstring d = paragraph ++ (PyStr.NL ++ PyStr.NL) ++ tail ->
      PyStr.contains (PyStr.NL ++ PyStr.NL) (paragraph ++ PyStr.NL) = false ->
      get self "signature"
      = (Return (VStr (PyStr.replace " = " "="
                         (PyStr.replace PyStr.NL " " paragraph))), []))
  /\ (PyStr.contains (PyStr.NL ++ PyStr.NL) (Definition_.docstring d) = false ->
      get self "signature"
      = (Return (VStr (PyStr.replace " = " "="
                         (PyStr.replace PyStr.NL " " (Definition_.docstring d)))),
         [])).
Proof.
  split.
  - intros paragraph tail Hdoc Hpar.
    destruct (split_from_paragraph paragraph tail "" Hpar) as [pieces E].
    apply (signature_of_first self d rest paragraph pieces Hdefs).
    unfold PyStr.split. now rewrite Hdoc.
  - intros Hnone.
    apply (signature_of_first self d rest (Definition_.docstring d) [] Hdefs).
    unfold PyStr.split. now rewrite split_from_whole.
Qed.

Lemma signature_is_first_paragraph_witness :
  get (session_resolving (Return [])
         (Return [Definition_.mk "function" "m.py" 1 0 false
                    ("f(a, b = 5)" ++ PyStr.NL ++ "  -> int" ++ PyStr.NL
                     ++ PyStr.NL ++ "Adds.")]))
      "signature"
  = (Return (VStr "f(a, b=5)   -> int"), []).
Proof.
  apply (proj1 (signature_is_first_paragraph
                  (session_resolving (Return [])
                     (Return [Definition_.mk "function" "m.py" 1 0 false
                                ("f(a, b = 5)" ++ PyStr.NL ++ "  -> int"
                                 ++ PyStr.NL ++ PyStr.NL ++ "Adds.")]))
                  _ [] eq_refl)
           ("f(a, b = 5)" ++ PyStr.NL ++ "  -> int") "Adds.");
    reflexivity.
Defined.

(** X13: a docstring of one line that holds no [" = "] is its own signature. *)
Theorem signature_of_plain_line (self : JediFacade)
    (d : Definition_.t) (rest : list Definition_.t)
    (Hdefs : Script.goto_definitions (script self) = Return (d :: rest))
    (Hline : PyStr.contains PyStr.NL (Definition_.docstring d) = false)
    (Hplain : PyStr.contains " = " (Definition_.docstring d) = false) :
  get self "signature" = (Return (VStr (Definition_.docstring d)), []).
Proof.
  assert (C : calltip (Definition_.docstring d) = Definition_.docstring d).
  { unfold calltip.
    replace (PyStr.replace PyStr.NL " " (Definition_.docstring d))
      with (Definition_.docstring d)
      by (symmetry; exact (replace_from_absent PyStr.NL " " _ Hline)).
    exact (replace_from_absent " = " "=" _ Hplain). }
  rewrite <- C.
  apply (signature_of_first self d rest (Definition_.docstring d) [] Hdefs).
  unfold PyStr.split.
  now rewrite split_from_whole by now apply no_newline_no_blank_line.
Qed.

Lemma signature_of_plain_line_witness :
  get (session_resolving (Return [])
         (Return [Definition_.mk "function" "m.py" 1 0 false "f(a, b=5)"]))
      "signature"
  = (Return (VStr "f(a, b=5)"), []).
Proof.
  apply (signature_of_plain_line
           (session_resolving (Return [])
              (Return [Definition_.mk "function" "m.py" 1 0 false "f(a, b=5)"]))
           (Definition_.mk "function" "m.py" 1 0 false "f(a, b=5)") []);
    reflexivity.
Defined.

(** ** More on goto and usages *)

(** X14: as soon as one assignment target is not an import, goto keeps the
    assignment targets and does not ask for the definitions: the result
    is the same whatever that operation would return or raise. *)
Theorem goto_keeps_assignments (self : JediFacade)
    (definitions : list Definition_.t) (d : Definition_.t)
    (Hassign : Script.goto_assignments (script self) = Return definitions)
    (Hin : In d definitions)
    (Htype : Definition_.type d <> "import") :
  _goto self
  = (Return (map location_of
               (filter (fun i => negb (Definition_.in_builtin_module i))
                  definitions)), []).
Proof.
  unfold _goto. rewrite Hassign. cbn [call bind].
  destruct (forallb _ definitions) eqn:F.
  - elim Htype. exact (proj1 (all_imports definitions) F d Hin).
  - reflexivity.
Qed.

Lemma goto_keeps_assignments_witness :
  _goto (session_resolving
           (Return [Definition_.mk "import" "main.py" 1 7 false "";
                    Definition_.mk "statement" "main.py" 4 0 false ""])
           (Raise (EngineError "ValueError")))
  = (Return [("main.py", 1%Z, 8%Z); ("main.py", 4%Z, 1%Z)], []).
Proof.
  apply (goto_keeps_assignments
           (session_resolving
              (Return [Definition_.mk "import" "main.py" 1 7 false "";
                       Definition_.mk "statement" "main.py" 4 0 false ""])
              (Raise (EngineError "ValueError")))
           [Definition_.mk "import" "main.py" 1 7 false "";
            Definition_.mk "statement" "main.py" 4 0 false ""]
           (Definition_.mk "statement" "main.py" 4 0 false "") eq_refl).
  - right. left. reflexivity.
  - discriminate.
Defined.

Lemma filter_nothing {A} (f : A -> bool) (l : list A) :
  (forall x, In x l -> f x = false) -> filter f l = [].
Proof.
  induction l as [| x l IH]; intros H; cbn; [reflexivity |].
  rewrite (H x (or_introl eq_refl)). apply IH. intros y I. apply H. now right.
Qed.

Lemma filter_everything {A} (f : A -> bool) (l : list A) :
  (forall x, In x l -> f x = true) -> filter f l = l.
Proof.
  intros H. apply filter_all. now apply forallb_forall.
Qed.

(** X15: usages returns at most one triple for each reference the engine
    finds: none at all, and still a list, when every reference is in a
    built-in module, and one for each when none is. *)
Theorem usages_outside_builtins (self : JediFacade)
    (found : list Definition_.t)
    (Hfound : Script.usages (script self) = Return found) :
  exists l,
    get self "usages" = (Return (VLocations l), [])
    /\ length l <= length found
    /\ ((forall d, In d found -> Definition_.in_builtin_module d = true) ->
        l = [])
    /\ ((forall d, In d found -> Definition_.in_builtin_module d = false) ->
        l = map location_of found).
Proof.
  eexists. split; [| split; [| split]].
  - unfold get. cbn [append getattr String.eqb Ascii.eqb Bool.eqb].
    unfold get_usages, _usages. rewrite Hfound. reflexivity.
  - unfold locations. rewrite length_map. apply filter_length_le.
  - intros H. unfold locations. rewrite filter_nothing; [reflexivity |].
    intros d I. now rewrite (H d I).
  - intros H. unfold locations. rewrite filter_everything; [reflexivity |].
    intros d I. now rewrite (H d I).
Qed.

Lemma usages_outside_builtins_witness :
  exists l,
    get session_on_import "usages" = (Return (VLocations l), [])
    /\ length l <= 2
    /\ ((forall d,
            In d [Definition_.mk "statement" "main.py" 9 0 false "";
                  Definition_.mk "function" "" 0 0 true "built-in"] ->
            Definition_.in_builtin_module d = true) ->
        l = [])
    /\ ((forall d,
            In d [Definition_.mk "statement" "main.py" 9 0 false "";
                  Definition_.mk "function" "" 0 0 true "built-in"] ->
            Definition_.in_builtin_module d = false) ->
        l = map location_of
              [Definition_.mk "statement" "main.py" 9 0 false "";
               Definition_.mk "function" "" 0 0 true "built-in"]).
Proof.
  exact (usages_outside_builtins session_on_import
           [Definition_.mk "statement" "main.py" 9 0 false "";
            Definition_.mk "function" "" 0 0 true "built-in"] eq_refl).
Defined.

(** ** More on the dispatcher *)

Lemma quiet_ret {A} (a : A) : quiet (ret a).
Proof. reflexivity. Qed.

Lemma quiet_raise {A} (e : exn) : quiet (@raise A e).
Proof. reflexivity. Qed.

Lemma quiet_call {A} (o : outcome A) : quiet (call o).
Proof. reflexivity. Qed.

Lemma quiet_getitem {A} (l : list A) (i : nat) : quiet (getitem l i).
Proof. unfold getitem. now destruct (nth_error l i). Qed.

Lemma quiet_bind {A B} (m : Py A) (f : A -> Py B) :
  quiet m -> (forall a, quiet (f a)) -> quiet (bind m f).
Proof.
  unfold quiet. intros Hm Hf. rewrite log_of_bind.
  destruct (value_of m) as [a | e]; [| exact Hm].
  now rewrite filter_app, Hm, Hf.
Qed.

Lemma quiet_try_except_IndexError {A} (body handler : Py A) :
  quiet body -> quiet handler -> quiet (try_except_IndexError body handler).
Proof.
  unfold quiet. destruct body as [[a | e] l]; cbn; [tauto |].
  destruct e; cbn; [| tauto | tauto].
  destruct handler as [r l']. cbn. intros Hb Hh. now rewrite filter_app, Hb, Hh.
Qed.

Lemma quiet_get_function_parameters (call_signature : option CallSignature.t)
    (with_keywords : bool) :
  quiet (get_function_parameters call_signature with_keywords).
Proof.
  unfold quiet.
  assert (E : log_of (get_function_parameters call_signature with_keywords)
              = map debug_record (declared_params call_signature)).
  { destruct call_signature as [sig |]; [| reflexivity].
    apply for_each_parameters_log. }
  rewrite E. apply filter_nothing. intros r H.
  apply in_map_iff in H. now destruct H as (p & <- & _).
Qed.

Create HintDb py_quiet.
#[local] Hint Resolve quiet_ret quiet_raise quiet_call quiet_getitem
  quiet_get_function_parameters : py_quiet.

Ltac quiet_steps :=
  repeat first
    [ apply quiet_bind; [| intro]
    | apply quiet_try_except_IndexError
    | solve [auto with py_quiet]
    | match goal with
      | |- quiet (match ?x with _ => _ end) => destruct x
      end ].

Lemma quiet_complete_call_assigments (self : JediFacade)
    (with_keywords with_values : bool) :
  quiet (_complete_call_assigments self with_keywords with_values).
Proof. unfold _complete_call_assigments. quiet_steps. Qed.

Lemma quiet_handlers (self : JediFacade) :
  quiet (get_goto self) /\ quiet (get_usages self)
  /\ quiet (get_funcargs self) /\ quiet (get_autocomplete self)
  /\ quiet (get_docstring self) /\ quiet (get_signature self).
Proof.
  pose proof (quiet_complete_call_assigments self) as Q.
  repeat split;
    unfold get_goto, get_usages, get_funcargs, get_autocomplete,
      autocomplete_entries, get_docstring, get_signature,
      _goto, _usages, _completion, _docstring;
    quiet_steps.
Qed.

Lemma quiet_run {A} (h : Py A) :
  quiet h -> quiet (handler <- ret h ;; handler).
Proof. unfold quiet. now destruct h as [r l]. Qed.

Lemma quiet_guarded_call (self : JediFacade) (action : string) :
  quiet (guarded_call self action).
Proof.
  destruct (quiet_handlers self) as (Q1 & Q2 & Q3 & Q4 & Q5 & Q6).
  unfold guarded_call. rewrite getattr_action.
  repeat match goal with
         | |- context [String.eqb action ?a] => destruct (String.eqb action a)
         end;
    solve [now apply quiet_run | reflexivity].
Qed.

(** X16: the log of [get] holds an error record exactly when the action
    failed, and then only one, naming the action and carrying the
    exception: the handlers themselves write debug records only. *)
Theorem get_error_record_iff_failure (self : JediFacade) (action : string) :
  filter is_error (log_of (get self action))
  = match value_of (guarded_call self action) with
    | Return _ => []
    | Raise e => [failure_record action e]
    end.
Proof.
  pose proof (quiet_guarded_call self action) as Q. unfold quiet in Q.
  change (get self action)
    with (try_except (guarded_call self action)
            (fun e =>
               logger_exception ("`JediFacade.get_" ++ action ++ "` failed") e ;;;
               ret VNone)).
  rewrite log_of_try_except.
  destruct (value_of (guarded_call self action)) as [v | e]; [exact Q |].
  rewrite filter_app, Q. reflexivity.
Qed.

Lemma collecting_value (self : JediFacade) (action : string) (v : value) :
  In action collecting_actions ->
  value_of (guarded_call self action) = Return v ->
  v <> VNone.
Proof.
  unfold collecting_actions, guarded_call.
  intros H. repeat (destruct H as [<- | H]); [| | | | contradiction];
    cbn [append getattr String.eqb Ascii.eqb Bool.eqb];
    rewrite value_of_bind; cbn [value_of ret fst];
    unfold get_goto, get_usages, get_funcargs, get_autocomplete;
    rewrite value_of_bind;
    match goal with
    | |- context [match ?x with _ => _ end] => destruct x
    end;
    cbn; intros E; inversion E; discriminate.
Qed.

(** X17: for goto, usages, funcargs and autocomplete, [get] returns [None]
    only when the action failed: finding nothing gives an empty list or
    an empty string instead. *)
Theorem get_none_only_on_failure (self : JediFacade) (action : string)
    (Haction : In action collecting_actions) :
  value_of (get self action) = Return VNone
  <-> exists e, value_of (guarded_call self action) = Raise e.
Proof.
  pose proof (get_outcome self action) as O.
  change (handler <- getattr self ("get_" ++ action) ;; handler)
    with (guarded_call self action) in O.
  destruct (value_of (guarded_call self action)) as [v | e] eqn:G.
  - split.
    + intros H. rewrite O in H. injection H as ->.
      now elim (collecting_value self action VNone Haction G).
    + intros [e H]. discriminate.
  - split; [now exists e | intros _; apply O].
Qed.

Lemma get_none_only_on_failure_witness :
  (value_of (get (session_resolving (Raise (EngineError "ValueError"))
                    (Return [])) "goto") = Return VNone
   <-> exists e,
         value_of (guarded_call
                     (session_resolving (Raise (EngineError "ValueError"))
                        (Return [])) "goto") = Raise e)
  /\ value_of (get session_in_call "goto") = Return (VLocations []).
Proof.
  split; [| reflexivity].
  apply get_none_only_on_failure. left. reflexivity.
Defined.
